(** * gdaltools.ogr2ogrcmd: the [Ogr2ogr] command builder

    A shallow embedding of [src/gdaltools/ogr2ogrcmd.py] and the properties
    of the argument list it assembles.

    Python objects live in an explicit world: the builder's attributes, a
    heap of [dict] objects addressed by reference (so that [copy], [update]
    and item assignment act on shared objects exactly as in the source), and
    a trace of the two observable effects of [execute] (the log line and the
    call of the process runner).  Methods are computations in a small
    state-and-exception monad over that world. *)

From Stdlib Require Import Ascii String ZArith Lia.
From stdpp Require Import gmap strings list fin_maps.

Open Scope string_scope.
Open Scope list_scope.
Open Scope nat_scope.

(** ** Python string primitives used by the builder *)

Module PyStr.

(** [c.lower()] on one byte: only the ASCII letters [A]-[Z] change. *)
Definition lower_ascii (c : ascii) : ascii :=
  let n := nat_of_ascii c in
  if (65 <=? n)%nat && (n <=? 90)%nat then ascii_of_nat (n + 32) else c.

(** [s.lower()] *)
Fixpoint lower (s : string) : string :=
  match s with
  | EmptyString => EmptyString
  | String c r => String (lower_ascii c) (lower r)
  end.

(** [s.startswith(p)] *)
Definition startswith (s p : string) : bool := String.prefix p s.

(** [s.endswith(suf)]: the last [len(suf)] characters of [s] are [suf]. *)
Definition endswith (s suf : string) : bool :=
  let n := String.length s in
  let m := String.length suf in
  (m <=? n)%nat && String.eqb (substring (n - m) m s) suf.

(** [s.rfind(c)]: the highest index of [c] in [s], or [-1]. *)
Fixpoint rfind_from (c : ascii) (s : string) (i last : Z) : Z :=
  match s with
  | EmptyString => last
  | String a r => rfind_from c r (i + 1) (if Ascii.eqb a c then i else last)
  end.

Definition rfind (s : string) (c : ascii) : Z := rfind_from c s 0 (-1).

(** [s[i:]] for [0 <= i]. *)
Fixpoint slice_from (i : nat) (s : string) : string :=
  match i, s with
  | O, _ => s
  | S _, EmptyString => EmptyString
  | S j, String _ r => slice_from j r
  end.

(** [sep.join(l)] *)
Definition join (sep : string) (l : list string) : string := String.concat sep l.

(** [c in s] *)
Fixpoint contains (s : string) (c : ascii) : bool :=
  match s with
  | EmptyString => false
  | String a r => Ascii.eqb a c || contains r c
  end.

(** Truth value of an optional string ([None] and [""] are false). *)
Definition truthy (o : option string) : bool :=
  match o with
  | None => false
  | Some s => negb (String.eqb s "")
  end.

(** [if o: ... o ...]: the string a true [o] stands for. *)
Definition if_true (o : option string) : option string :=
  if truthy o then o else None.

End PyStr.

(** [os.path.basename(p)] (posixpath): [i = p.rfind('/') + 1; return p[i:]]. *)
Definition basename (p : string) : string :=
  let i := (PyStr.rfind p "/" + 1)%Z in
  PyStr.slice_from (Z.to_nat i) p.

(** ** Connection strings (gdaltools.basetypes) *)

(** Modelled from the spec: [basetypes.ConnectionString] is not part of this
    module; the builder consumes from it a capability set: the rendering for
    execution ([encode()]), the rendering for display ([unicode(...)]) and
    the type discriminator ([isinstance(_, FileConnectionString)]). *)
Record ConnectionString : Type := mkConnectionString {
  is_file : bool;
  encode : string;
  unicode : string;
}.

(** Modelled from the spec: [basetypes.FileConnectionString(path)], the file
    reference a raw path is wrapped into.  Its execution form is the path
    itself (the format and the layer name are inferred from it).  The spec
    names a display form but does not say what it is; it is taken to be the
    path as well. *)
Definition FileConnectionString (path : string) : ConnectionString :=
  {| is_file := true; encode := path; unicode := path |}.

(** ** The world: builder attributes, dict objects, observable effects *)

(** A Python [dict] with string keys and values. *)
Abbreviation dict := (gmap string string).

(** A reference to a [dict] object: its position in the heap. *)
Abbreviation ref := nat.

(** The attributes assigned together by [set_input]. *)
Record InputLayer : Type := mkInput {
  in_ds : ConnectionString;
  in_table : option string;
  in_srs : option string;
  in_encoding : option string;
}.

(** The attributes assigned together by [set_output]. *)
Record OutputLayer : Type := mkOutput {
  out_ds : ConnectionString;
  out_file_type : string;
  out_table : option string;
  out_srs : option string;
}.

(** The attributes of an [Ogr2ogr] instance.  [input] and [output] are
    [None] until [set_input] / [set_output] has created the attributes:
    reading them before raises [AttributeError]. *)
Record Ogr2ogr : Type := mkOgr2ogr {
  command : string;
  layer_mode : string;
  data_source_mode : string;
  _dataset_creation_options : ref;
  _layer_creation_options : ref;
  _dataset_creation_options_internal : ref;
  _layer_creation_options_internal : ref;
  _config_options : ref;
  _config_options_internal : ref;
  _geom_type : option string;
  input : option InputLayer;
  output : option OutputLayer;
}.

Inductive event : Type :=
| LogDebug (line : string)            (* logging.debug(line) *)
| DoExecute (args : list string).     (* self._do_execute(args) *)

Record World : Type := mkWorld {
  heap : list dict;
  this : Ogr2ogr;
  trace : list event;
}.

Inductive exn : Type :=
| AttributeError (attr : string)
| DanglingReference (r : ref).

Inductive outcome (A : Type) : Type :=
| Returns (a : A) (w : World)
| Raises (e : exn).
Arguments Returns {A} a w.
Arguments Raises {A} e.

(** Computations over the world. *)
Definition M (A : Type) : Type := World -> outcome A.

Definition M_ret {A} (a : A) : M A := fun w => Returns a w.

Definition M_bind {A B} (f : A -> M B) (m : M A) : M B :=
  fun w => match m w with
           | Returns a w' => f a w'
           | Raises e => Raises e
           end.

#[global] Instance M_mret : MRet M := @M_ret.
#[global] Instance M_mbind : MBind M := @M_bind.

Definition get_this : M Ogr2ogr := fun w => Returns (this w) w.

Definition modify_this (f : Ogr2ogr -> Ogr2ogr) : M unit :=
  fun w => Returns tt {| heap := heap w; this := f (this w); trace := trace w |}.

Definition emit (e : event) : M unit :=
  fun w => Returns tt {| heap := heap w; this := this w; trace := trace w ++ [e] |}.

(** *** Operations on dict objects *)

(** [{...}] / [dict(d)]: a new object, at the first unused reference. *)
Definition dict_new (d : dict) : M ref :=
  fun w => Returns (length (heap w))
             {| heap := heap w ++ [d]; this := this w; trace := trace w |}.

Definition dict_read (r : ref) : M dict :=
  fun w => match heap w !! r with
           | Some d => Returns d w
           | None => Raises (DanglingReference r)
           end.

Definition dict_write (r : ref) (d : dict) : M unit :=
  fun w => match heap w !! r with
           | Some _ => Returns tt {| heap := <[r := d]> (heap w); this := this w;
                                      trace := trace w |}
           | None => Raises (DanglingReference r)
           end.

(** [r.copy()] *)
Definition dict_copy (r : ref) : M ref :=
  d ← dict_read r; dict_new d.

(** [for k, v in other.items(): d[k] = v], on dict values. *)
Definition update_items (d other : dict) : dict :=
  map_fold (fun k v acc => <[k := v]> acc) d other.

(** [r.update(other)]: every item of [other] is stored into [r]. *)
Definition dict_update (r other : ref) : M unit :=
  o ← dict_read other;
  d ← dict_read r;
  dict_write r (update_items d o).

(** [r[k] = v] *)
Definition dict_setitem (r : ref) (k v : string) : M unit :=
  d ← dict_read r;
  dict_write r (<[k := v]> d).

(** *** Attribute access *)

Definition get_input (attr : string) : M InputLayer :=
  fun w => match input (this w) with
           | Some i => Returns i w
           | None => Raises (AttributeError attr)
           end.

Definition get_output (attr : string) : M OutputLayer :=
  fun w => match output (this w) with
           | Some o => Returns o w
           | None => Raises (AttributeError attr)
           end.

Definition with_input (i : InputLayer) (s : Ogr2ogr) : Ogr2ogr :=
  {| command := command s; layer_mode := layer_mode s;
     data_source_mode := data_source_mode s;
     _dataset_creation_options := _dataset_creation_options s;
     _layer_creation_options := _layer_creation_options s;
     _dataset_creation_options_internal := _dataset_creation_options_internal s;
     _layer_creation_options_internal := _layer_creation_options_internal s;
     _config_options := _config_options s;
     _config_options_internal := _config_options_internal s;
     _geom_type := _geom_type s; input := Some i; output := output s |}.

Definition with_output (o : OutputLayer) (s : Ogr2ogr) : Ogr2ogr :=
  {| command := command s; layer_mode := layer_mode s;
     data_source_mode := data_source_mode s;
     _dataset_creation_options := _dataset_creation_options s;
     _layer_creation_options := _layer_creation_options s;
     _dataset_creation_options_internal := _dataset_creation_options_internal s;
     _layer_creation_options_internal := _layer_creation_options_internal s;
     _config_options := _config_options s;
     _config_options_internal := _config_options_internal s;
     _geom_type := _geom_type s; input := input s; output := Some o |}.

Definition with_modes (lm dm : string) (s : Ogr2ogr) : Ogr2ogr :=
  {| command := command s; layer_mode := lm; data_source_mode := dm;
     _dataset_creation_options := _dataset_creation_options s;
     _layer_creation_options := _layer_creation_options s;
     _dataset_creation_options_internal := _dataset_creation_options_internal s;
     _layer_creation_options_internal := _layer_creation_options_internal s;
     _config_options := _config_options s;
     _config_options_internal := _config_options_internal s;
     _geom_type := _geom_type s; input := input s; output := output s |}.

Definition with_geom_type (g : option string) (s : Ogr2ogr) : Ogr2ogr :=
  {| command := command s; layer_mode := layer_mode s;
     data_source_mode := data_source_mode s;
     _dataset_creation_options := _dataset_creation_options s;
     _layer_creation_options := _layer_creation_options s;
     _dataset_creation_options_internal := _dataset_creation_options_internal s;
     _layer_creation_options_internal := _layer_creation_options_internal s;
     _config_options := _config_options s;
     _config_options_internal := _config_options_internal s;
     _geom_type := g; input := input s; output := output s |}.

Definition with_dataset_creation_options (r : ref) (s : Ogr2ogr) : Ogr2ogr :=
  {| command := command s; layer_mode := layer_mode s;
     data_source_mode := data_source_mode s;
     _dataset_creation_options := r;
     _layer_creation_options := _layer_creation_options s;
     _dataset_creation_options_internal := _dataset_creation_options_internal s;
     _layer_creation_options_internal := _layer_creation_options_internal s;
     _config_options := _config_options s;
     _config_options_internal := _config_options_internal s;
     _geom_type := _geom_type s; input := input s; output := output s |}.

Definition with_layer_creation_options (r : ref) (s : Ogr2ogr) : Ogr2ogr :=
  {| command := command s; layer_mode := layer_mode s;
     data_source_mode := data_source_mode s;
     _dataset_creation_options := _dataset_creation_options s;
     _layer_creation_options := r;
     _dataset_creation_options_internal := _dataset_creation_options_internal s;
     _layer_creation_options_internal := _layer_creation_options_internal s;
     _config_options := _config_options s;
     _config_options_internal := _config_options_internal s;
     _geom_type := _geom_type s; input := input s; output := output s |}.

Definition with_config_options (r : ref) (s : Ogr2ogr) : Ogr2ogr :=
  {| command := command s; layer_mode := layer_mode s;
     data_source_mode := data_source_mode s;
     _dataset_creation_options := _dataset_creation_options s;
     _layer_creation_options := _layer_creation_options s;
     _dataset_creation_options_internal := _dataset_creation_options_internal s;
     _layer_creation_options_internal := _layer_creation_options_internal s;
     _config_options := r;
     _config_options_internal := _config_options_internal s;
     _geom_type := _geom_type s; input := input s; output := output s |}.

(** ** class Ogr2ogr(Wrapper) *)

Definition MODE_LAYER_CREATE : string := "CR".
Definition MODE_LAYER_APPEND : string := "AP".
Definition MODE_LAYER_OVERWRITE : string := "OW".

Definition MODE_DS_CREATE : string := "CR".
Definition MODE_DS_UPDATE : string := "UP".
Definition MODE_DS_CREATE_OR_UPDATE : string := "CU".

Definition OGR2OGR_PATH : string := "/usr/bin/ogr2ogr".

Definition _get_default_command : string := OGR2OGR_PATH.

(** An argument that is either a [ConnectionString] object or anything else
    (a raw path), as tested by [isinstance(_, ConnectionString)]. *)
Definition as_connection (ds : ConnectionString + string) : ConnectionString :=
  match ds with
  | inl c => c
  | inr path => FileConnectionString path
  end.

(** The chain of tests on [dslower] in [set_output]. *)
Definition infer_file_type (dslower : string) : string :=
  if PyStr.endswith dslower ".shp" then "ESRI Shapefile"
  else if PyStr.startswith dslower "pg:" then "PostgreSQL"
  else if PyStr.endswith dslower ".sqlite" then "SQLite"
  else if PyStr.endswith dslower ".json" || PyStr.endswith dslower ".geojson"
       then "GeoJSON"
  else if PyStr.endswith dslower ".gml" then "GML"
  else if PyStr.endswith dslower ".csv" then "CSV"
  else if PyStr.endswith dslower ".gpx" then "GPX"
  else if PyStr.endswith dslower ".kml" then "KML"
  else "ESRI Shapefile".

(** [def set_output_mode(self, layer_mode=MODE_LAYER_CREATE,
    data_source_mode=MODE_DS_CREATE)] *)
Definition set_output_mode (layer_mode data_source_mode : string) : M unit :=
  modify_this (with_modes layer_mode data_source_mode).

(** [geom_type.setter] *)
Definition set_geom_type (geom_type : option string) : M unit :=
  modify_this (with_geom_type geom_type).

(** [def __init__(self, version=1, command_path=None)]; [cmd] is the
    [self.command] that [Wrapper.__init__] leaves behind. *)
Definition __init__ (cmd : string) : M unit :=
  dco ← dict_new ∅;
  lco ← dict_new ∅;
  dcoi ← dict_new ∅;
  lcoi ← dict_new ∅;
  co ← dict_new ∅;
  coi ← dict_new ∅;
  modify_this (fun _ =>
    {| command := cmd;
       layer_mode := MODE_LAYER_CREATE; data_source_mode := MODE_DS_CREATE;
       _dataset_creation_options := dco;
       _layer_creation_options := lco;
       _dataset_creation_options_internal := dcoi;
       _layer_creation_options_internal := lcoi;
       _config_options := co;
       _config_options_internal := coi;
       _geom_type := None; input := None; output := None |}).

(** [def set_input(self, input_ds, table_name=None, srs=None, encoding=None)] *)
Definition set_input (input_ds : ConnectionString + string)
    (table_name srs encoding : option string) : M unit :=
  modify_this (with_input {| in_ds := as_connection input_ds;
                             in_table := table_name;
                             in_srs := srs;
                             in_encoding := encoding |});;
  match PyStr.if_true encoding with
  | Some e =>
      self ← get_this;
      dict_setitem (_config_options_internal self) "SHAPE_ENCODING" e
  | None => mret tt
  end.

(** [def set_output(self, output_ds, file_type=None, table_name=None, srs=None)] *)
Definition set_output (output_ds : ConnectionString + string)
    (file_type table_name srs : option string) : M unit :=
  let ds := as_connection output_ds in
  let resolved :=
    match PyStr.if_true file_type with
    | Some t => t
    | None => infer_file_type (PyStr.lower (encode ds))
    end in
  modify_this (with_output {| out_ds := ds;
                              out_file_type := resolved;
                              out_table := table_name;
                              out_srs := srs |});;
  if bool_decide (file_type = Some "SQLite") then
    self ← get_this;
    dict_setitem (_dataset_creation_options_internal self) "SPATIALITE" "YES"
  else mret tt.

(** [geom_type] (property) *)
Definition geom_type : M (option string) :=
  self ← get_this;
  o ← get_output "out_file_type";
  if String.eqb (out_file_type o) "PostgreSQL" && negb (PyStr.truthy (_geom_type self))
  then mret (Some "PROMOTE_TO_MULTI")
  else mret (_geom_type self).

(** The body shared by the three option properties:
    [result = internal.copy(); result.update(user); return result]. *)
Definition merged_options (internal user : ref) : M ref :=
  result ← dict_copy internal;
  dict_update result user;;
  mret result.

(** [dataset_creation_options] (property) and its setter *)
Definition dataset_creation_options : M ref :=
  self ← get_this;
  merged_options (_dataset_creation_options_internal self) (_dataset_creation_options self).

Definition set_dataset_creation_options (ds_creation_options : ref) : M unit :=
  modify_this (with_dataset_creation_options ds_creation_options).

(** [layer_creation_options] (property) and its setter *)
Definition layer_creation_options : M ref :=
  self ← get_this;
  merged_options (_layer_creation_options_internal self) (_layer_creation_options self).

Definition set_layer_creation_options (layer_creation_options : ref) : M unit :=
  modify_this (with_layer_creation_options layer_creation_options).

(** [config_options] (property) and its setter *)
Definition config_options : M ref :=
  self ← get_this;
  merged_options (_config_options_internal self) (_config_options self).

Definition set_config_options (options : ref) : M unit :=
  modify_this (with_config_options options).

Section Execute.

(** The order in which [d.iteritems()] enumerates a dict.  Python leaves it
    unspecified; all that is known is that every item comes exactly once. *)
Variable iteritems : dict -> list (string * string).
Hypothesis iteritems_items : forall d, iteritems d ≡ₚ map_to_list d.

(** [os.path.exists] *)
Variable path_exists : string -> bool.

(** What the process runner [Wrapper._do_execute] answers. *)
Variable Result : Type.
Variable process_result : list string -> Result.

(** [r.iteritems()] *)
Definition dict_iteritems (r : ref) : M (list (string * string)) :=
  d ← dict_read r; mret (iteritems d).

(** Modelled from the spec: [Wrapper._do_execute(args)] is not part of this
    module; it is the process runner, one operation from an argument list to
    a result.  The call is recorded in the trace, the answer is the
    runner's. *)
Definition _do_execute (args : list string) : M Result :=
  emit (DoExecute args);; mret (process_result args).

(** [for key, value in items: args.extend(["-dsco", key+"="+value])] *)
Definition extend_dsco (args : list string) (items : list (string * string)) :=
  fold_left (fun args '(key, value) => args ++ ["-dsco"; key +:+ "=" +:+ value])
            items args.

(** [for key, value in items: args.extend(["-lco", key+"="+value])] *)
Definition extend_lco (args : list string) (items : list (string * string)) :=
  fold_left (fun args '(key, value) => args ++ ["-lco"; key +:+ "=" +:+ value])
            items args.

(** [for key, value in items: args.extend(["--config", key, value])] *)
Definition extend_config (args : list string) (items : list (string * string)) :=
  fold_left (fun args '(key, value) => args ++ ["--config"; key; value])
            items args.

(** Lines 195-243 of [execute]: the two argument lists, [args] for the
    process runner and [safe_args] for the log. *)
Definition build_args : M (list string * list string) :=
  self ← get_this;
  let args := [command self] in
  args ← (if String.eqb (data_source_mode self) MODE_DS_UPDATE then
            mret (args ++ ["-update"])
          else if String.eqb (data_source_mode self) MODE_DS_CREATE_OR_UPDATE then
            o ← get_output "out_ds";
            if is_file (out_ds o) && path_exists (unicode (out_ds o)) then
              mret (args ++ ["-update"])
            else
              mret (args ++ ["-update"])
          else mret args);
  let args :=
    if String.eqb (layer_mode self) MODE_LAYER_APPEND then args ++ ["-append"]
    else if String.eqb (layer_mode self) MODE_LAYER_OVERWRITE then args ++ ["-overwrite"]
    else args in
  o ← get_output "out_srs";
  let args :=
    match PyStr.if_true (out_srs o) with
    | Some srs => args ++ ["-t_srs"; srs]
    | None => args
    end in
  i ← get_input "in_srs";
  let args :=
    match PyStr.if_true (in_srs i) with
    | Some srs => (args ++ ["-a_srs"; srs]) ++ ["-s_srs"; srs]
    | None => args
    end in
  let args := args ++ ["-f"; out_file_type o] in
  dsco ← dataset_creation_options;
  items ← dict_iteritems dsco;
  let args := extend_dsco args items in
  lco ← layer_creation_options;
  items ← dict_iteritems lco;
  let args := extend_lco args items in
  co ← config_options;
  items ← dict_iteritems co;
  let args := extend_config args items in
  let args :=
    match PyStr.if_true (out_table o) with
    | Some t => args ++ ["-nln"; t]
    | None =>
        match PyStr.if_true (in_table i) with
        | Some t => args ++ ["-nln"; t]
        | None =>
            if is_file (in_ds i)
            then args ++ ["-nln"; basename (encode (in_ds i))]
            else args
        end
    end in
  g ← geom_type;
  let args :=
    match PyStr.if_true g with
    | Some t => args ++ ["-nlt"; t]
    | None => args
    end in
  let safe_args := args in
  match PyStr.if_true (in_table i) with
  | Some t =>
      mret (args ++ [encode (out_ds o); encode (in_ds i); t],
            safe_args ++ [unicode (out_ds o); unicode (in_ds i); t])
  | None =>
      mret (args ++ [encode (out_ds o); encode (in_ds i)],
            safe_args ++ [unicode (out_ds o); unicode (in_ds i)])
  end.

(** [def execute(self)] *)
Definition execute : M Result :=
  '(args, safe_args) ← build_args;
  emit (LogDebug (PyStr.join " " safe_args));;
  _do_execute args.

End Execute.

(** * Observations on worlds *)

(** The dict a reference stands for (the empty dict when it dangles). *)
Definition deref (w : World) (r : ref) : dict := default ∅ (heap w !! r).

(** All six option dicts of the builder are live objects. *)
Definition well_formed (w : World) : bool :=
  forallb (fun r => r <? length (heap w))
    [ _dataset_creation_options (this w);
      _layer_creation_options (this w);
      _dataset_creation_options_internal (this w);
      _layer_creation_options_internal (this w);
      _config_options (this w);
      _config_options_internal (this w) ].

(** [set_input] and [set_output] have both been called. *)
Definition configured (w : World) : bool :=
  match input (this w), output (this w) with
  | Some _, Some _ => true
  | _, _ => false
  end.

(** The merged view of an option layer pair: the user's dict over the
    internal one. *)
Definition merged (w : World) (internal user : ref) : dict :=
  deref w user ∪ deref w internal.

(** The world with new dict objects at the end of the heap. *)
Definition grow (w : World) (ds : list dict) : World :=
  {| heap := heap w ++ ds; this := this w; trace := trace w |}.

(** The world [execute] leaves behind before it logs and runs: the three
    merged views are new objects, nothing else has changed. *)
Definition after_views (w : World) : World :=
  grow w
    [ merged w (_dataset_creation_options_internal (this w))
               (_dataset_creation_options (this w));
      merged w (_layer_creation_options_internal (this w))
               (_layer_creation_options (this w));
      merged w (_config_options_internal (this w))
               (_config_options (this w)) ].

(** The enumerations of the three merged views that [execute] walks, for
    an enumeration order [iteritems]. *)
Section Items.

Variable iteritems : dict -> list (string * string).

Definition dsco_items (w : World) : list (string * string) :=
  iteritems (merged w (_dataset_creation_options_internal (this w))
                      (_dataset_creation_options (this w))).

Definition lco_items (w : World) : list (string * string) :=
  iteritems (merged w (_layer_creation_options_internal (this w))
                      (_layer_creation_options (this w))).

Definition config_items (w : World) : list (string * string) :=
  iteritems (merged w (_config_options_internal (this w))
                      (_config_options (this w))).

End Items.

(** * The argument protocol of the external tool, as the specification
    lists it (section 4.1, steps 2 to 12) *)

Module Protocol.

(** Step 2: UPDATE or CREATE_OR_UPDATE both emit an update flag; CREATE
    emits nothing. *)
Definition data_source_flag (mode : string) : list string :=
  if String.eqb mode MODE_DS_UPDATE then ["-update"]
  else if String.eqb mode MODE_DS_CREATE_OR_UPDATE then ["-update"]
  else [].

(** Step 3: APPEND emits an append flag, OVERWRITE an overwrite flag,
    CREATE nothing. *)
Definition layer_flag (mode : string) : list string :=
  if String.eqb mode MODE_LAYER_APPEND then ["-append"]
  else if String.eqb mode MODE_LAYER_OVERWRITE then ["-overwrite"]
  else [].

(** Step 4: if the output spatial reference is set, the target SRS flag
    and the value. *)
Definition target_srs (srs : option string) : list string :=
  match PyStr.if_true srs with
  | Some v => ["-t_srs"; v]
  | None => []
  end.

(** Step 5: if the input spatial reference is set, both the assign flag
    and the source flag, each with the same value. *)
Definition source_srs (srs : option string) : list string :=
  match PyStr.if_true srs with
  | Some v => ["-a_srs"; v; "-s_srs"; v]
  | None => []
  end.

(** Step 6: the output format flag and the resolved file type, always. *)
Definition format (file_type : string) : list string := ["-f"; file_type].

(** Step 7: a dataset-creation flag with KEY=VALUE as one token, for each
    item. *)
Definition dsco (items : list (string * string)) : list string :=
  flat_map (fun kv => ["-dsco"; kv.1 +:+ "=" +:+ kv.2]) items.

(** Step 8: the same with the layer-creation flag. *)
Definition lco (items : list (string * string)) : list string :=
  flat_map (fun kv => ["-lco"; kv.1 +:+ "=" +:+ kv.2]) items.

(** Step 9: a config flag followed by KEY and VALUE as two tokens, for
    each item. *)
Definition config (items : list (string * string)) : list string :=
  flat_map (fun kv => ["--config"; kv.1; kv.2]) items.

(** Step 10: the layer name by first-match precedence: the output table
    name, else the input table name, else (only for a file reference) the
    base filename of the input path. *)
Definition layer_name (i : InputLayer) (o : OutputLayer) : option string :=
  match PyStr.if_true (out_table o) with
  | Some t => Some t
  | None =>
      match PyStr.if_true (in_table i) with
      | Some t => Some t
      | None => if is_file (in_ds i) then Some (basename (encode (in_ds i)))
                else None
      end
  end.

Definition nln (i : InputLayer) (o : OutputLayer) : list string :=
  match layer_name i o with
  | Some n => ["-nln"; n]
  | None => []
  end.

(** The geometry type: the explicit override if present; otherwise the
    promotion sentinel for the database format; otherwise unset. *)
Definition geometry_type (override : option string) (file_type : string)
  : option string :=
  match PyStr.if_true override with
  | Some g => Some g
  | None => if String.eqb file_type "PostgreSQL" then Some "PROMOTE_TO_MULTI"
            else override
  end.

(** Step 11: if the geometry type is non-empty, the geometry type flag and
    the value. *)
Definition nlt (override : option string) (file_type : string) : list string :=
  match PyStr.if_true (geometry_type override file_type) with
  | Some g => ["-nlt"; g]
  | None => []
  end.

(** Step 12: the output destination, the input destination and, only if
    an input table name was given, the input table name. *)
Definition positional (render : ConnectionString -> string)
    (i : InputLayer) (o : OutputLayer) : list string :=
  [render (out_ds o); render (in_ds i)] ++
  match PyStr.if_true (in_table i) with
  | Some t => [t]
  | None => []
  end.

(** Steps 1 to 11, for the given enumerations of the three merged option
    dicts. *)
Definition flags (self : Ogr2ogr) (i : InputLayer) (o : OutputLayer)
    (dsco_items lco_items config_items : list (string * string)) : list string :=
  [command self] ++
  data_source_flag (data_source_mode self) ++
  layer_flag (layer_mode self) ++
  target_srs (out_srs o) ++
  source_srs (in_srs i) ++
  format (out_file_type o) ++
  dsco dsco_items ++
  lco lco_items ++
  config config_items ++
  nln i o ++
  nlt (_geom_type self) (out_file_type o).

End Protocol.


(** * The output format table, as the specification lists it *)

Module FormatTable.

Inductive rule : Type :=
| Suffix (s : string)
| Prefix (s : string).

Definition matches (destination : string) (r : rule) : bool :=
  match r with
  | Suffix s => PyStr.endswith destination s
  | Prefix s => PyStr.startswith destination s
  end.

Definition table : list (rule * string) :=
  [ (Suffix ".shp", "ESRI Shapefile");
    (Prefix "pg:", "PostgreSQL");
    (Suffix ".sqlite", "SQLite");
    (Suffix ".json", "GeoJSON");
    (Suffix ".geojson", "GeoJSON");
    (Suffix ".gml", "GML");
    (Suffix ".csv", "CSV");
    (Suffix ".gpx", "GPX");
    (Suffix ".kml", "KML") ].

(** The first entry the lower-cased destination matches; the shapefile
    format when it matches none. *)
Definition inferred (destination : string) : string :=
  match find (fun e => matches (PyStr.lower destination) e.1) table with
  | Some e => e.2
  | None => "ESRI Shapefile"
  end.

(** An explicit file type wins; otherwise the table decides. *)
Definition resolved (explicit : option string) (destination : string) : string :=
  match PyStr.if_true explicit with
  | Some t => t
  | None => inferred destination
  end.

End FormatTable.

(** * Reading an argument list *)

(** The token that follows the first occurrence of [flag]. *)
Fixpoint flag_value (flag : string) (args : list string) : option string :=
  match args with
  | [] => None
  | a :: rest => if String.eqb a flag then head rest else flag_value flag rest
  end.

(** The tokens of the argument list that are values taken from the
    configuration, in the order in which they occur; every other token is a
    flag written by [execute] itself. *)
Definition value_tokens (self : Ogr2ogr) (i : InputLayer) (o : OutputLayer)
    (dsco_items lco_items config_items : list (string * string)) : list string :=
  [command self] ++
  match PyStr.if_true (out_srs o) with Some v => [v] | None => [] end ++
  match PyStr.if_true (in_srs i) with Some v => [v; v] | None => [] end ++
  [out_file_type o] ++
  map (fun kv => kv.1 +:+ "=" +:+ kv.2) dsco_items ++
  map (fun kv => kv.1 +:+ "=" +:+ kv.2) lco_items ++
  flat_map (fun kv => [kv.1; kv.2]) config_items ++
  match Protocol.layer_name i o with Some n => [n] | None => [] end ++
  match PyStr.if_true (Protocol.geometry_type (_geom_type self) (out_file_type o)) with
  | Some g => [g]
  | None => []
  end ++
  Protocol.positional encode i o.

(** How often [tok] occurs in an argument list. *)
Fixpoint occurrences (tok : string) (args : list string) : nat :=
  match args with
  | [] => 0
  | a :: rest => (if String.eqb a tok then 1 else 0) + occurrences tok rest
  end.

(** * What the option accessors do *)

(** What a read accessor of an option layer pair does at [w]: it returns a
    reference to a dict in which, key by key, the user's value wins and the
    internal value fills in; the builder and every existing object are as
    before. *)
Definition reads_merged (getter : M ref) (internal user : Ogr2ogr -> ref)
    (w : World) : Prop :=
  exists (r : ref) (w' : World) (view : dict),
    getter w = Returns r w' /\
    heap w' !! r = Some view /\
    (forall k : string,
       view !! k = match deref w (user (this w)) !! k with
                   | Some v => Some v
                   | None => deref w (internal (this w)) !! k
                   end) /\
    this w' = this w /\
    (forall l : ref, l < length (heap w) -> heap w' !! l = heap w !! l).

(** What a write accessor does at [w]: the user reference is replaced, the
    internal reference and all dict objects are as before. *)
Definition replaces_user (setter : ref -> M unit) (internal user : Ogr2ogr -> ref)
    (w : World) : Prop :=
  forall u : ref,
    exists w' : World,
      setter u w = Returns tt w' /\
      user (this w') = u /\
      internal (this w') = internal (this w) /\
      heap w' = heap w.

(** * Sample sessions *)

Module Sample.

(** The world before any builder exists. *)
Definition blank : World :=
  {| heap := [];
     this := {| command := ""; layer_mode := ""; data_source_mode := "";
                _dataset_creation_options := 0;
                _layer_creation_options := 0;
                _dataset_creation_options_internal := 0;
                _layer_creation_options_internal := 0;
                _config_options := 0;
                _config_options_internal := 0;
                _geom_type := None; input := None; output := None |};
     trace := [] |}.

(** The world a call leaves behind (the same world if it raises). *)
Definition after {A} (m : M A) (w : World) : World :=
  match m w with
  | Returns _ w' => w'
  | Raises _ => w
  end.

(** [Ogr2ogr()] *)
Definition fresh : World := after (__init__ OGR2OGR_PATH) blank.

(** [ogr.set_input("/data/roads.shp"); ogr.set_output("out.shp")] *)
Definition roads : World :=
  after (set_output (inr "out.shp") None None None)
    (after (set_input (inr "/data/roads.shp") None None None) fresh).

Definition gis_db : ConnectionString :=
  {| is_file := false;
     encode := "PG:dbname='gis' password='secret'";
     unicode := "PG:dbname='gis' password='xxxxxx'" |}.

(** [ogr.set_input(gis_db, table_name="parcels"); ogr.set_output("out.shp")] *)
Definition parcels : World :=
  after (set_output (inr "out.shp") None None None)
    (after (set_input (inl gis_db) (Some "parcels") None None) fresh).

(** [ogr.set_input("/data/roads.shp"); ogr.set_output("out.sqlite")] *)
Definition to_sqlite : World :=
  after (set_output (inr "out.sqlite") None None None)
    (after (set_input (inr "/data/roads.shp") None None None) fresh).

(** [ogr.set_input("/data/roads.shp", srs="EPSG:25830", encoding="latin1");
    ogr.set_output(gis_db, table_name="roads", srs="EPSG:4326");
    ogr.set_output_mode(MODE_LAYER_APPEND, MODE_DS_UPDATE)] *)
Definition to_postgis : World :=
  after (set_output_mode MODE_LAYER_APPEND MODE_DS_UPDATE)
    (after (set_output (inl gis_db) None (Some "roads") (Some "EPSG:4326"))
       (after (set_input (inr "/data/roads.shp") None (Some "EPSG:25830")
                         (Some "latin1")) fresh)).

End Sample.

(** * Editing option dicts *)

(** Assigning an item through an option property: the dict the getter
    returns is a copy, so the assignment changes that copy and nothing
    else. *)
Definition edit_is_lost (getter : M ref) (internal user : Ogr2ogr -> ref)
    (w : World) : Prop :=
  forall k v : string,
    exists (r : ref) (w' : World),
      (r ← getter; dict_setitem r k v;; mret r) w = Returns r w' /\
      heap w' !! r = Some (<[k := v]> (merged w (internal (this w)) (user (this w)))) /\
      this w' = this w /\
      (forall l : ref, l < length (heap w) -> heap w' !! l = heap w !! l) /\
      merged w' (internal (this w')) (user (this w')) =
      merged w (internal (this w)) (user (this w)).

(** Assigning a dict to an option property and changing that dict
    afterwards: the builder holds the caller's dict itself, so the change
    shows in the merged view. *)
Definition later_edit_shows (setter : ref -> M unit) (getter : M ref)
    (w : World) : Prop :=
  forall (r : ref) (k v : string),
    r < length (heap w) ->
    exists (w1 w2 : World) (view : ref) (d : dict),
      (setter r;; dict_setitem r k v) w = Returns tt w1 /\
      getter w1 = Returns view w2 /\
      heap w2 !! view = Some d /\
      d !! k = Some v.

(** * Sessions: any sequence of calls on a builder *)

(** A call of a method or a property of the builder.  An option setter is
    called with a dict the caller has just made. *)
Inductive call : Type :=
| CallSetInput (input_ds : ConnectionString + string)
               (table_name srs encoding : option string)
| CallSetOutput (output_ds : ConnectionString + string)
                (file_type table_name srs : option string)
| CallSetOutputMode (layer_mode data_source_mode : string)
| CallSetGeomType (geom_type : option string)
| CallSetDatasetCreationOptions (options : dict)
| CallSetLayerCreationOptions (options : dict)
| CallSetConfigOptions (options : dict)
| CallGetGeomType
| CallGetDatasetCreationOptions
| CallGetLayerCreationOptions
| CallGetConfigOptions
| CallExecute.

Section Sessions.

Variable iteritems : dict -> list (string * string).
Variable path_exists : string -> bool.
Variable Result : Type.
Variable process_result : list string -> Result.

(** One call, its result dropped. *)
Definition run_call (c : call) : M unit :=
  match c with
  | CallSetInput input_ds table_name srs encoding =>
      set_input input_ds table_name srs encoding
  | CallSetOutput output_ds file_type table_name srs =>
      set_output output_ds file_type table_name srs
  | CallSetOutputMode layer_mode data_source_mode =>
      set_output_mode layer_mode data_source_mode
  | CallSetGeomType g => set_geom_type g
  | CallSetDatasetCreationOptions d => r ← dict_new d; set_dataset_creation_options r
  | CallSetLayerCreationOptions d => r ← dict_new d; set_layer_creation_options r
  | CallSetConfigOptions d => r ← dict_new d; set_config_options r
  | CallGetGeomType => geom_type;; mret tt
  | CallGetDatasetCreationOptions => dataset_creation_options;; mret tt
  | CallGetLayerCreationOptions => layer_creation_options;; mret tt
  | CallGetConfigOptions => config_options;; mret tt
  | CallExecute => execute iteritems path_exists Result process_result;; mret tt
  end.

(** The calls one after the other, up to the first exception. *)
Fixpoint run_calls (cs : list call) : M unit :=
  match cs with
  | [] => mret tt
  | c :: rest => run_call c;; run_calls rest
  end.

(** One call by a caller who catches what it raises.  The calls that can
    raise, [execute] and the read of [geom_type], raise [AttributeError] on
    the first attribute they read that [set_input] or [set_output] has not
    made yet (l.139, l.200, l.211, l.214), before they write anything: the
    builder is then as it was before the call. *)
Definition attempt (c : call) : M unit :=
  fun w => match run_call c w with
           | Returns _ w' => Returns tt w'
           | Raises _ => Returns tt w
           end.

(** The calls one after the other, each exception caught. *)
Fixpoint run_calls_caught (cs : list call) : M unit :=
  match cs with
  | [] => mret tt
  | c :: rest => attempt c;; run_calls_caught rest
  end.

End Sessions.

(** What the builder may hold in its internal dicts: nothing in the
    layer-creation one, at most the spatialite entry in the dataset-creation
    one, at most an encoding in the config one; the three are separate live
    objects. *)
Definition internal_defaults_only (w : World) : Prop :=
  well_formed w = true /\
  _layer_creation_options_internal (this w) <>
    _dataset_creation_options_internal (this w) /\
  _layer_creation_options_internal (this w) <> _config_options_internal (this w) /\
  _dataset_creation_options_internal (this w) <> _config_options_internal (this w) /\
  deref w (_layer_creation_options_internal (this w)) = ∅ /\
  (forall k v : string,
     deref w (_dataset_creation_options_internal (this w)) !! k = Some v ->
     k = "SPATIALITE" /\ v = "YES") /\
  (forall k v : string,
     deref w (_config_options_internal (this w)) !! k = Some v ->
     k = "SHAPE_ENCODING").

(** * Properties *)

(** ** Stepping through computations *)

Lemma bind_returns {A B} (m : M A) (f : A -> M B) (w w' : World) (a : A) :
  m w = Returns a w' -> (x ← m; f x) w = f a w'.
Proof. intros H. unfold mbind, M_mbind, M_bind. now rewrite H. Qed.

Lemma bind_raises {A B} (m : M A) (f : A -> M B) (w : World) (e : exn) :
  m w = Raises e -> (x ← m; f x) w = Raises e.
Proof. intros H. unfold mbind, M_mbind, M_bind. now rewrite H. Qed.

Lemma live_lookup (w : World) (r : ref) :
  r < length (heap w) -> heap w !! r = Some (deref w r).
Proof.
  intros H. unfold deref.
  destruct (lookup_lt_is_Some_2 (heap w) r H) as [d Hd]. now rewrite Hd.
Qed.

Lemma well_formed_live (w : World) :
  well_formed w = true ->
  _dataset_creation_options (this w) < length (heap w) /\
  _layer_creation_options (this w) < length (heap w) /\
  _dataset_creation_options_internal (this w) < length (heap w) /\
  _layer_creation_options_internal (this w) < length (heap w) /\
  _config_options (this w) < length (heap w) /\
  _config_options_internal (this w) < length (heap w).
Proof.
  unfold well_formed. cbn [forallb]. rewrite !andb_true_iff, !Nat.ltb_lt. tauto.
Qed.

(** ** Dict objects *)

Lemma dict_read_live (w : World) (r : ref) :
  r < length (heap w) -> dict_read r w = Returns (deref w r) w.
Proof. intros H. unfold dict_read. now rewrite (live_lookup w r H). Qed.

Lemma grow_live (w : World) (ds : list dict) (r : ref) :
  r < length (heap w) -> r < length (heap (grow w ds)).
Proof. unfold grow. cbn [heap]. rewrite length_app. lia. Qed.

(** Growing the heap leaves the live objects as they are. *)
Lemma deref_grow (w : World) (ds : list dict) (r : ref) :
  r < length (heap w) -> deref (grow w ds) r = deref w r.
Proof. intros H. unfold deref, grow. cbn [heap]. now rewrite lookup_app_l. Qed.

Lemma merged_grow (w : World) (ds : list dict) (r1 r2 : ref) :
  r1 < length (heap w) -> r2 < length (heap w) ->
  merged (grow w ds) r1 r2 = merged w r1 r2.
Proof. intros H1 H2. unfold merged. now rewrite !deref_grow. Qed.

Lemma grow_grow (w : World) (ds1 ds2 : list dict) :
  grow (grow w ds1) ds2 = grow w (ds1 ++ ds2).
Proof. unfold grow. cbn [heap this trace]. now rewrite <- app_assoc. Qed.

(** Storing the items of [other] one by one gives the union in which
    [other] wins. *)
Lemma update_items_union (d other : dict) : update_items d other = other ∪ d.
Proof.
  unfold update_items.
  induction other as [|k v other Hk Hfirst IH] using map_first_key_ind.
  - rewrite map_fold_empty. now rewrite (left_id_L ∅ (∪)).
  - rewrite map_fold_insert_first_key by assumption.
    rewrite IH. now rewrite insert_union_l.
Qed.

(** The merged view is a new object holding the user's items over the
    internal ones; no existing object changes. *)
Lemma merged_options_returns (w : World) (internal user : ref) :
  internal < length (heap w) -> user < length (heap w) ->
  merged_options internal user w =
  Returns (length (heap w)) (grow w [merged w internal user]).
Proof.
  intros Hi Hu. unfold merged_options, dict_copy.
  rewrite (bind_returns _ _ w (grow w [deref w internal]) (length (heap w))).
  2:{ rewrite (bind_returns _ _ w w (deref w internal)) by now apply dict_read_live.
      reflexivity. }
  unfold dict_update, dict_read, dict_write, grow, merged.
  unfold mbind, M_mbind, M_bind, mret, M_mret, M_ret. cbn [heap this trace].
  rewrite (lookup_app_l _ _ _ Hu), (live_lookup w user Hu).
  cbn [heap this trace].
  rewrite list_lookup_middle by reflexivity. cbn [heap this trace].
  rewrite list_lookup_middle by reflexivity.
  f_equal. f_equal. rewrite update_items_union.
  rewrite insert_app_r_alt by lia. now rewrite Nat.sub_diag.
Qed.

Lemma getter_returns (w : World) (internal user : Ogr2ogr -> ref) :
  internal (this w) < length (heap w) -> user (this w) < length (heap w) ->
  (self ← get_this; merged_options (internal self) (user self)) w =
  Returns (length (heap w))
          (grow w [merged w (internal (this w)) (user (this w))]).
Proof.
  intros Hi Hu. rewrite (bind_returns get_this _ w w (this w)) by reflexivity.
  now apply merged_options_returns.
Qed.

(** ** The [geom_type] property *)

Lemma geom_type_returns (w : World) (o : OutputLayer) :
  output (this w) = Some o ->
  geom_type w =
  Returns (Protocol.geometry_type (_geom_type (this w)) (out_file_type o)) w.
Proof.
  intros Ho. unfold geom_type.
  rewrite (bind_returns get_this _ w w (this w)) by reflexivity.
  rewrite (bind_returns _ _ w w o) by (unfold get_output; now rewrite Ho).
  unfold Protocol.geometry_type, PyStr.if_true.
  destruct (PyStr.truthy (_geom_type (this w))) eqn:Ht.
  - rewrite andb_false_r. destruct (_geom_type (this w)); [reflexivity|discriminate].
  - rewrite andb_true_r. now destruct (String.eqb (out_file_type o) "PostgreSQL").
Qed.

(** ** The assembly of the argument list *)

Section ExecuteFacts.

Variable iteritems : dict -> list (string * string).
Hypothesis iteritems_items : forall d, iteritems d ≡ₚ map_to_list d.
Variable path_exists : string -> bool.
Variable Result : Type.
Variable process_result : list string -> Result.

Lemma extend_dsco_flat (args : list string) (items : list (string * string)) :
  extend_dsco args items = args ++ Protocol.dsco items.
Proof.
  unfold extend_dsco, Protocol.dsco. revert args.
  induction items as [|[k v] items IH]; intros args; cbn.
  - now rewrite app_nil_r.
  - rewrite IH. now rewrite <- app_assoc.
Qed.

Lemma extend_lco_flat (args : list string) (items : list (string * string)) :
  extend_lco args items = args ++ Protocol.lco items.
Proof.
  unfold extend_lco, Protocol.lco. revert args.
  induction items as [|[k v] items IH]; intros args; cbn.
  - now rewrite app_nil_r.
  - rewrite IH. now rewrite <- app_assoc.
Qed.

Lemma extend_config_flat (args : list string) (items : list (string * string)) :
  extend_config args items = args ++ Protocol.config items.
Proof.
  unfold extend_config, Protocol.config. revert args.
  induction items as [|[k v] items IH]; intros args; cbn.
  - now rewrite app_nil_r.
  - rewrite IH. now rewrite <- app_assoc.
Qed.

Lemma dict_iteritems_new (w : World) (d : dict) :
  dict_iteritems iteritems (length (heap w)) (grow w [d]) =
  Returns (iteritems d) (grow w [d]).
Proof.
  unfold dict_iteritems, dict_read, grow. unfold mbind, M_mbind, M_bind.
  cbn [heap]. now rewrite list_lookup_middle by reflexivity.
Qed.

Lemma step_layer_flag (args : list string) (mode : string) :
  (if String.eqb mode MODE_LAYER_APPEND then args ++ ["-append"]
   else if String.eqb mode MODE_LAYER_OVERWRITE then args ++ ["-overwrite"]
   else args) = args ++ Protocol.layer_flag mode.
Proof.
  unfold Protocol.layer_flag.
  destruct (String.eqb mode MODE_LAYER_APPEND); [reflexivity|].
  destruct (String.eqb mode MODE_LAYER_OVERWRITE); [reflexivity|].
  now rewrite app_nil_r.
Qed.

Lemma step_target_srs (args : list string) (srs : option string) :
  match PyStr.if_true srs with
  | Some v => args ++ ["-t_srs"; v]
  | None => args
  end = args ++ Protocol.target_srs srs.
Proof.
  unfold Protocol.target_srs.
  destruct (PyStr.if_true srs); [reflexivity|now rewrite app_nil_r].
Qed.

Lemma step_source_srs (args : list string) (srs : option string) :
  match PyStr.if_true srs with
  | Some v => (args ++ ["-a_srs"; v]) ++ ["-s_srs"; v]
  | None => args
  end = args ++ Protocol.source_srs srs.
Proof.
  unfold Protocol.source_srs.
  destruct (PyStr.if_true srs); [now rewrite <- app_assoc|now rewrite app_nil_r].
Qed.

Lemma step_nln (args : list string) (i : InputLayer) (o : OutputLayer) :
  match PyStr.if_true (out_table o) with
  | Some t => args ++ ["-nln"; t]
  | None =>
      match PyStr.if_true (in_table i) with
      | Some t => args ++ ["-nln"; t]
      | None =>
          if is_file (in_ds i)
          then args ++ ["-nln"; basename (encode (in_ds i))]
          else args
      end
  end = args ++ Protocol.nln i o.
Proof.
  unfold Protocol.nln, Protocol.layer_name.
  destruct (PyStr.if_true (out_table o)); [reflexivity|].
  destruct (PyStr.if_true (in_table i)); [reflexivity|].
  destruct (is_file (in_ds i)); [reflexivity|now rewrite app_nil_r].
Qed.

Lemma step_nlt (args : list string) (g : option string) :
  match PyStr.if_true g with
  | Some t => args ++ ["-nlt"; t]
  | None => args
  end = args ++ match PyStr.if_true g with
                | Some t => ["-nlt"; t]
                | None => []
                end.
Proof. destruct (PyStr.if_true g); [reflexivity|now rewrite app_nil_r]. Qed.

Lemma step_positional (args : list string) (i : InputLayer) (o : OutputLayer) :
  match PyStr.if_true (in_table i) with
  | Some t =>
      M_ret (args ++ [encode (out_ds o); encode (in_ds i); t],
             args ++ [unicode (out_ds o); unicode (in_ds i); t])
  | None =>
      M_ret (args ++ [encode (out_ds o); encode (in_ds i)],
             args ++ [unicode (out_ds o); unicode (in_ds i)])
  end = M_ret (args ++ Protocol.positional encode i o,
               args ++ Protocol.positional unicode i o).
Proof.
  unfold Protocol.positional. now destruct (PyStr.if_true (in_table i)).
Qed.

(** On a configured builder the assembly returns, with both lists in
    closed form. *)
Lemma build_args_returns (w : World) (i : InputLayer) (o : OutputLayer) :
  input (this w) = Some i -> output (this w) = Some o -> well_formed w = true ->
  build_args iteritems path_exists w =
  Returns
    (Protocol.flags (this w) i o (dsco_items iteritems w) (lco_items iteritems w)
      (config_items iteritems w)
       ++ Protocol.positional encode i o,
     Protocol.flags (this w) i o (dsco_items iteritems w) (lco_items iteritems w)
      (config_items iteritems w)
       ++ Protocol.positional unicode i o)
    (after_views w).
Proof.
  intros Hi Ho Hwf. apply well_formed_live in Hwf.
  destruct Hwf as (H1 & H2 & H3 & H4 & H5 & H6).
  unfold build_args, dsco_items, lco_items, config_items.
  rewrite (bind_returns get_this _ w w (this w)) by reflexivity.
  rewrite (bind_returns _ _ w w
             ([command (this w)] ++
              Protocol.data_source_flag (data_source_mode (this w)))).
  2:{ unfold Protocol.data_source_flag.
      destruct (String.eqb (data_source_mode (this w)) MODE_DS_UPDATE);
        [reflexivity|].
      destruct (String.eqb (data_source_mode (this w)) MODE_DS_CREATE_OR_UPDATE).
      - rewrite (bind_returns _ _ w w o) by (unfold get_output; now rewrite Ho).
        now destruct (is_file (out_ds o) && path_exists (unicode (out_ds o))).
      - now rewrite app_nil_r. }
  rewrite (bind_returns _ _ w w o) by (unfold get_output; now rewrite Ho).
  rewrite (bind_returns _ _ w w i) by (unfold get_input; now rewrite Hi).
  rewrite (bind_returns dataset_creation_options _ _ _ _
             (getter_returns w _ _ H3 H1)).
  rewrite (bind_returns _ _ _ _ _ (dict_iteritems_new w _)).
  set (m1 := merged w _ _).
  rewrite (bind_returns layer_creation_options _ _ _ _
             (getter_returns (grow w [m1]) _ _
                (grow_live w _ _ H4) (grow_live w _ _ H2))).
  rewrite (bind_returns _ _ _ _ _ (dict_iteritems_new _ _)).
  set (m2 := merged (grow w [m1]) _ _).
  rewrite (bind_returns config_options _ _ _ _
             (getter_returns (grow (grow w [m1]) [m2]) _ _
                (grow_live _ _ _ (grow_live w _ _ H6))
                (grow_live _ _ _ (grow_live w _ _ H5)))).
  rewrite (bind_returns _ _ _ _ _ (dict_iteritems_new _ _)).
  set (m3 := merged (grow (grow w [m1]) [m2]) _ _).
  rewrite (bind_returns geom_type _ _ _ _
             (geom_type_returns (grow (grow (grow w [m1]) [m2]) [m3]) o Ho)).
  assert (E2 : m2 = merged w (_layer_creation_options_internal (this w))
                           (_layer_creation_options (this w))).
  { subst m2. now apply merged_grow. }
  assert (E3 : m3 = merged w (_config_options_internal (this w))
                           (_config_options (this w))).
  { subst m3. rewrite grow_grow. now apply merged_grow. }
  rewrite !grow_grow. change ([m1] ++ [m2] ++ [m3]) with [m1; m2; m3].
  unfold after_views. rewrite <- E2, <- E3. fold m1.
  change (this (grow w [m1; m2; m3])) with (this w).
  clearbody m1 m2 m3. clear E2 E3.
  rewrite !step_layer_flag, !step_target_srs, !step_source_srs.
  rewrite ?extend_config_flat, ?extend_lco_flat, ?extend_dsco_flat.
  rewrite !step_nln, !step_nlt.
  unfold mret, M_mret. rewrite step_positional.
  unfold Protocol.flags, Protocol.nlt, Protocol.format, M_ret.
  rewrite <- !app_assoc. reflexivity.
Qed.

(** Before [set_output] the assembly raises [AttributeError]. *)
Lemma build_args_needs_output (w : World) :
  output (this w) = None ->
  exists attr : string,
    build_args iteritems path_exists w = Raises (AttributeError attr).
Proof.
  intros Ho. unfold build_args.
  rewrite (bind_returns get_this _ w w (this w)) by reflexivity.
  assert (Hraise : forall attr, get_output attr w = Raises (AttributeError attr)).
  { intros attr. unfold get_output. now rewrite Ho. }
  destruct (String.eqb (data_source_mode (this w)) MODE_DS_UPDATE).
  - exists "out_srs". rewrite (bind_returns _ _ w w _ eq_refl).
    now apply bind_raises.
  - destruct (String.eqb (data_source_mode (this w)) MODE_DS_CREATE_OR_UPDATE).
    + exists "out_ds". apply bind_raises. now apply bind_raises.
    + exists "out_srs". rewrite (bind_returns _ _ w w _ eq_refl).
      now apply bind_raises.
Qed.

(** After [set_output] but before [set_input] it raises on [in_srs]. *)
Lemma build_args_needs_input (w : World) (o : OutputLayer) :
  output (this w) = Some o -> input (this w) = None ->
  build_args iteritems path_exists w = Raises (AttributeError "in_srs").
Proof.
  intros Ho Hi. unfold build_args.
  rewrite (bind_returns get_this _ w w (this w)) by reflexivity.
  rewrite (bind_returns _ _ w w
             ([command (this w)] ++
              Protocol.data_source_flag (data_source_mode (this w)))).
  2:{ unfold Protocol.data_source_flag.
      destruct (String.eqb (data_source_mode (this w)) MODE_DS_UPDATE);
        [reflexivity|].
      destruct (String.eqb (data_source_mode (this w)) MODE_DS_CREATE_OR_UPDATE).
      - rewrite (bind_returns _ _ w w o) by (unfold get_output; now rewrite Ho).
        now destruct (is_file (out_ds o) && path_exists (unicode (out_ds o))).
      - now rewrite app_nil_r. }
  rewrite (bind_returns _ _ w w o) by (unfold get_output; now rewrite Ho).
  apply bind_raises. unfold get_input. now rewrite Hi.
Qed.

(** [execute] logs the safe list and hands the other one to the process
    runner. *)
Lemma execute_returns (w : World) (i : InputLayer) (o : OutputLayer) :
  input (this w) = Some i -> output (this w) = Some o -> well_formed w = true ->
  let common :=
    Protocol.flags (this w) i o (dsco_items iteritems w) (lco_items iteritems w)
      (config_items iteritems w) in
  let args := common ++ Protocol.positional encode i o in
  let safe_args := common ++ Protocol.positional unicode i o in
  execute iteritems path_exists Result process_result w =
  Returns (process_result args)
    {| heap := heap (after_views w); this := this w;
       trace := trace w ++ [LogDebug (PyStr.join " " safe_args); DoExecute args] |}.
Proof.
  intros Hi Ho Hwf common args safe_args. unfold execute.
  rewrite (bind_returns _ _ _ _ _ (build_args_returns w i o Hi Ho Hwf)).
  unfold _do_execute, emit, mbind, M_mbind, M_bind, mret, M_mret, M_ret.
  cbn [heap this trace after_views grow]. now rewrite <- app_assoc.
Qed.

End ExecuteFacts.

(** ** [os.path.basename] *)

Lemma rfind_from_absent (c : ascii) (s : string) (i last : Z) :
  PyStr.contains s c = false -> PyStr.rfind_from c s i last = last.
Proof.
  revert i last. induction s as [|a r IH]; intros i last H; cbn in *.
  - reflexivity.
  - apply orb_false_iff in H as [Ha Hr]. rewrite Ha. now apply IH.
Qed.

Lemma rfind_from_app (c : ascii) (s1 s2 : string) (i last : Z) :
  PyStr.rfind_from c (s1 +:+ s2) i last =
  PyStr.rfind_from c s2 (i + Z.of_nat (String.length s1))
                   (PyStr.rfind_from c s1 i last).
Proof.
  revert i last. induction s1 as [|a r IH]; intros i last.
  - change ("" +:+ s2) with s2. cbn. now rewrite Z.add_0_r.
  - change (String a r +:+ s2) with (String a (r +:+ s2)).
    cbn [PyStr.rfind_from String.length]. rewrite IH. f_equal. lia.
Qed.

Lemma slice_from_past (s1 s2 : string) (c : ascii) :
  PyStr.slice_from (S (String.length s1)) (s1 +:+ String c s2) = s2.
Proof.
  induction s1 as [|a r IH].
  - change ("" +:+ String c s2) with (String c s2). now destruct s2.
  - change (String a r +:+ String c s2) with (String a (r +:+ String c s2)).
    exact IH.
Qed.

(** Everything up to and including the last slash is stripped. *)
Lemma basename_strips_directories (dir name : string) :
  PyStr.contains name "/" = false ->
  basename (dir +:+ "/" +:+ name) = name.
Proof.
  intros H. unfold basename, PyStr.rfind.
  change ("/" +:+ name) with (String "/" name).
  rewrite rfind_from_app. cbn [PyStr.rfind_from].
  replace (Ascii.eqb "/" "/") with true by reflexivity.
  rewrite (rfind_from_absent _ _ _ _ H).
  replace (Z.to_nat (0 + Z.of_nat (String.length dir) + 1))
    with (S (String.length dir)) by lia.
  apply slice_from_past.
Qed.

(** A path without a slash is its own base name. *)
Lemma basename_plain (name : string) :
  PyStr.contains name "/" = false -> basename name = name.
Proof.
  intros H. unfold basename, PyStr.rfind.
  now rewrite (rfind_from_absent _ _ _ _ H).
Qed.

(** ** Counting tokens *)

Lemma occurrences_app (tok : string) (l1 l2 : list string) :
  occurrences tok (l1 ++ l2) = occurrences tok l1 + occurrences tok l2.
Proof. induction l1 as [|a l1 IH]; cbn; [reflexivity|]. rewrite IH. lia. Qed.

Lemma occurrences_absent (tok : string) (l : list string) :
  ~ In tok l -> occurrences tok l = 0.
Proof.
  induction l as [|a l IH]; cbn; [reflexivity|]. intros H.
  destruct (String.eqb_spec a tok) as [->|_]; [exfalso; apply H; now left|].
  apply IH. intros Hin. apply H. now right.
Qed.

Lemma occurrences_dsco (items : list (string * string)) :
  occurrences "-update" (Protocol.dsco items) =
  occurrences "-update" (map (fun kv => kv.1 +:+ "=" +:+ kv.2) items).
Proof.
  unfold Protocol.dsco. induction items as [|kv items IH]; [reflexivity|].
  cbn [flat_map map app occurrences]. rewrite IH. reflexivity.
Qed.

Lemma occurrences_lco (items : list (string * string)) :
  occurrences "-update" (Protocol.lco items) =
  occurrences "-update" (map (fun kv => kv.1 +:+ "=" +:+ kv.2) items).
Proof.
  unfold Protocol.lco. induction items as [|kv items IH]; [reflexivity|].
  cbn [flat_map map app occurrences]. rewrite IH. reflexivity.
Qed.

Lemma occurrences_config (items : list (string * string)) :
  occurrences "-update" (Protocol.config items) =
  occurrences "-update" (flat_map (fun kv => [kv.1; kv.2]) items).
Proof.
  unfold Protocol.config. induction items as [|kv items IH]; [reflexivity|].
  cbn [flat_map app occurrences]. rewrite IH. reflexivity.
Qed.

(** The flags that [execute] writes after the data-source mode flag are
    never [-update]: the tokens of steps 1 and 3 to 12 hold as many
    [-update] as the configured values do. *)
Lemma occurrences_values (self : Ogr2ogr) (i : InputLayer) (o : OutputLayer)
    (d1 d2 d3 : list (string * string)) :
  occurrences "-update" (Protocol.flags self i o d1 d2 d3
                           ++ Protocol.positional encode i o) =
  occurrences "-update" (Protocol.data_source_flag (data_source_mode self)) +
  occurrences "-update" (value_tokens self i o d1 d2 d3).
Proof.
  unfold Protocol.flags, value_tokens, Protocol.layer_flag, Protocol.target_srs,
    Protocol.source_srs, Protocol.format, Protocol.nln, Protocol.nlt.
  rewrite !occurrences_app, occurrences_dsco, occurrences_lco, occurrences_config.
  destruct (String.eqb (layer_mode self) MODE_LAYER_APPEND),
    (String.eqb (layer_mode self) MODE_LAYER_OVERWRITE),
    (PyStr.if_true (out_srs o)), (PyStr.if_true (in_srs i)),
    (Protocol.layer_name i o),
    (PyStr.if_true (Protocol.geometry_type (_geom_type self) (out_file_type o)));
    cbn [occurrences String.eqb Ascii.eqb Bool.eqb]; lia.
Qed.

(** ** The setters *)

Lemma infer_file_type_table (d : string) :
  infer_file_type (PyStr.lower d) = FormatTable.inferred d.
Proof.
  unfold infer_file_type, FormatTable.inferred, FormatTable.table.
  cbn [find FormatTable.matches fst snd].
  generalize (PyStr.lower d) as l. intros l.
  destruct (PyStr.endswith l ".shp"); [reflexivity|].
  destruct (PyStr.startswith l "pg:"); [reflexivity|].
  destruct (PyStr.endswith l ".sqlite"); [reflexivity|].
  destruct (PyStr.endswith l ".json"); [reflexivity|].
  destruct (PyStr.endswith l ".geojson"); [reflexivity|].
  destruct (PyStr.endswith l ".gml"); [reflexivity|].
  destruct (PyStr.endswith l ".csv"); [reflexivity|].
  destruct (PyStr.endswith l ".gpx"); [reflexivity|].
  destruct (PyStr.endswith l ".kml"); reflexivity.
Qed.

Lemma dict_setitem_live (w : World) (r : ref) (k v : string) :
  r < length (heap w) ->
  dict_setitem r k v w =
  Returns tt {| heap := <[r := <[k := v]> (deref w r)]> (heap w);
                this := this w; trace := trace w |}.
Proof.
  intros H. unfold dict_setitem.
  rewrite (bind_returns _ _ w w (deref w r)) by now apply dict_read_live.
  unfold dict_write. now rewrite (live_lookup w r H).
Qed.

Lemma merged_lookup (w : World) (internal user : ref) (k : string) :
  merged w internal user !! k =
  match deref w user !! k with
  | Some v => Some v
  | None => deref w internal !! k
  end.
Proof.
  unfold merged. rewrite lookup_union.
  destruct (deref w user !! k), (deref w internal !! k); reflexivity.
Qed.

Lemma getter_reads_merged (w : World) (internal user : Ogr2ogr -> ref) :
  internal (this w) < length (heap w) -> user (this w) < length (heap w) ->
  reads_merged (self ← get_this; merged_options (internal self) (user self))
               internal user w.
Proof.
  intros Hi Hu. unfold reads_merged.
  exists (length (heap w)), (grow w [merged w (internal (this w)) (user (this w))]),
         (merged w (internal (this w)) (user (this w))).
  split; [now apply getter_returns|].
  split; [unfold grow; cbn [heap]; now rewrite list_lookup_middle|].
  split; [intros k; apply merged_lookup|].
  split; [reflexivity|].
  intros l Hl. unfold grow. cbn [heap]. now apply lookup_app_l.
Qed.

(** With an explicit ['SQLite'] file type [set_output] stores the
    spatialite entry in the internal dataset-creation dict, and the merged
    view shows it unless the user dict has the key. *)
Lemma explicit_sqlite_injects (w : World) (output_ds : ConnectionString + string)
    (table_name srs : option string) :
  well_formed w = true ->
  exists w' : World,
    set_output output_ds (Some "SQLite") table_name srs w = Returns tt w' /\
    deref w' (_dataset_creation_options_internal (this w')) !! "SPATIALITE" = Some "YES" /\
    (deref w' (_dataset_creation_options (this w')) !! "SPATIALITE" = None ->
     merged w' (_dataset_creation_options_internal (this w'))
               (_dataset_creation_options (this w')) !! "SPATIALITE" = Some "YES").
Proof.
  intros Hwf. apply well_formed_live in Hwf.
  destruct Hwf as (_ & _ & H3 & _).
  unfold set_output.
  set (o := {| out_ds := as_connection output_ds; out_file_type := _;
               out_table := table_name; out_srs := srs |}).
  rewrite (bind_returns _ _ w
             {| heap := heap w; this := with_output o (this w); trace := trace w |} tt)
    by reflexivity.
  rewrite bool_decide_eq_true_2 by reflexivity.
  rewrite (bind_returns get_this _ _ _ _ eq_refl).
  rewrite dict_setitem_live by exact H3.
  eexists. split; [reflexivity|].
  match goal with |- ?A /\ _ => assert (E : A) end.
  { unfold deref at 1. cbn [heap this with_output _dataset_creation_options_internal].
    rewrite list_lookup_insert_eq by exact H3. cbn [default].
    apply lookup_insert_eq. }
  split; [exact E|].
  intros Hu. rewrite merged_lookup, Hu. exact E.
Qed.

(** ** Builders made through the interface are well formed *)

Lemma init_well_formed (w : World) (cmd : string) :
  exists w' : World,
    __init__ cmd w = Returns tt w' /\
    well_formed w' = true /\ configured w' = false /\ command (this w') = cmd.
Proof.
  eexists. split; [reflexivity|]. split; [|split; reflexivity].
  unfold well_formed. cbn [heap this forallb
    _dataset_creation_options _layer_creation_options
    _dataset_creation_options_internal _layer_creation_options_internal
    _config_options _config_options_internal].
  rewrite !andb_true_iff, !Nat.ltb_lt, !length_app. cbn [length]. lia.
Qed.

Lemma well_formed_insert (w : World) (r : ref) (d : dict) (s : Ogr2ogr) :
  _dataset_creation_options s = _dataset_creation_options (this w) ->
  _layer_creation_options s = _layer_creation_options (this w) ->
  _dataset_creation_options_internal s = _dataset_creation_options_internal (this w) ->
  _layer_creation_options_internal s = _layer_creation_options_internal (this w) ->
  _config_options s = _config_options (this w) ->
  _config_options_internal s = _config_options_internal (this w) ->
  well_formed w = true ->
  well_formed {| heap := <[r := d]> (heap w); this := s; trace := trace w |} = true.
Proof.
  intros E1 E2 E3 E4 E5 E6 H. unfold well_formed in *.
  cbn [heap this]. now rewrite length_insert, E1, E2, E3, E4, E5, E6.
Qed.

Lemma set_input_well_formed (w : World) (input_ds : ConnectionString + string)
    (table_name srs encoding : option string) :
  well_formed w = true ->
  exists w' : World,
    set_input input_ds table_name srs encoding w = Returns tt w' /\
    well_formed w' = true /\
    input (this w') = Some {| in_ds := as_connection input_ds;
                              in_table := table_name;
                              in_srs := srs;
                              in_encoding := encoding |} /\
    output (this w') = output (this w).
Proof.
  intros Hwf. unfold set_input.
  set (i := {| in_ds := as_connection input_ds; in_table := table_name;
               in_srs := srs; in_encoding := encoding |}).
  rewrite (bind_returns _ _ w
             {| heap := heap w; this := with_input i (this w); trace := trace w |} tt)
    by reflexivity.
  destruct (PyStr.if_true encoding) as [e|].
  - rewrite (bind_returns get_this _ _ _ _ eq_refl).
    rewrite dict_setitem_live
      by (cbn [heap this with_input _config_options_internal];
          apply well_formed_live in Hwf; tauto).
    eexists. split; [reflexivity|]. split; [|split; reflexivity].
    now apply well_formed_insert.
  - eexists. split; [reflexivity|]. split; [exact Hwf|split; reflexivity].
Qed.

Lemma set_output_well_formed (w : World) (output_ds : ConnectionString + string)
    (file_type table_name srs : option string) :
  well_formed w = true ->
  exists (w' : World) (o : OutputLayer),
    set_output output_ds file_type table_name srs w = Returns tt w' /\
    well_formed w' = true /\
    output (this w') = Some o /\
    input (this w') = input (this w).
Proof.
  intros Hwf. unfold set_output.
  set (o := {| out_ds := as_connection output_ds; out_file_type := _;
               out_table := table_name; out_srs := srs |}).
  rewrite (bind_returns _ _ w
             {| heap := heap w; this := with_output o (this w); trace := trace w |} tt)
    by reflexivity.
  destruct (bool_decide (file_type = Some "SQLite")).
  - rewrite (bind_returns get_this _ _ _ _ eq_refl).
    rewrite dict_setitem_live
      by (cbn [heap this with_output _dataset_creation_options_internal];
          apply well_formed_live in Hwf; tauto).
    eexists. exists o. split; [reflexivity|]. split; [|split; reflexivity].
    now apply well_formed_insert.
  - eexists. exists o. split; [reflexivity|]. split; [exact Hwf|split; reflexivity].
Qed.

(** A new builder on which [set_input] and [set_output] have been called
    is configured and well formed, whatever the arguments. *)
Lemma session_configured (w : World) (cmd : string)
    (input_ds output_ds : ConnectionString + string)
    (in_table_name in_srs' encoding file_type out_table_name out_srs' : option string) :
  exists w' : World,
    (__init__ cmd;;
     set_input input_ds in_table_name in_srs' encoding;;
     set_output output_ds file_type out_table_name out_srs') w = Returns tt w' /\
    configured w' = true /\ well_formed w' = true.
Proof.
  destruct (init_well_formed w cmd) as (w1 & H1 & Hwf1 & _).
  destruct (set_input_well_formed w1 input_ds in_table_name in_srs' encoding Hwf1)
    as (w2 & H2 & Hwf2 & Hi2 & _).
  destruct (set_output_well_formed w2 output_ds file_type out_table_name out_srs' Hwf2)
    as (w3 & o & H3 & Hwf3 & Ho3 & Hi3).
  exists w3. split.
  - rewrite (bind_returns _ _ _ _ _ H1), (bind_returns _ _ _ _ _ H2). exact H3.
  - split; [|exact Hwf3]. unfold configured. now rewrite Hi3, Hi2, Ho3.
Qed.

(** * The claims *)

(** ** Configuration *)

(** C2.  [set_output] returns, and the file type it stores is the explicit
    [file_type] when one is given (a true value); otherwise it is the type
    of the first entry of the format table that the lower-cased textual
    form of the destination matches, and ['ESRI Shapefile'] when it matches
    none. *)
Theorem set_output_file_type (w : World) (output_ds : ConnectionString + string)
    (file_type table_name srs : option string) :
  well_formed w = true ->
  exists (w' : World) (o : OutputLayer),
    set_output output_ds file_type table_name srs w = Returns tt w' /\
    output (this w') = Some o /\
    out_file_type o =
      FormatTable.resolved file_type (encode (as_connection output_ds)).
Proof.
  intros Hwf. apply well_formed_live in Hwf.
  destruct Hwf as (_ & _ & H3 & _).
  unfold set_output.
  set (o := {| out_ds := as_connection output_ds; out_file_type := _;
               out_table := table_name; out_srs := srs |}).
  rewrite (bind_returns _ _ w
             {| heap := heap w; this := with_output o (this w); trace := trace w |} tt)
    by reflexivity.
  assert (Ht : out_file_type o =
               FormatTable.resolved file_type (encode (as_connection output_ds))).
  { subst o. cbn [out_file_type]. unfold FormatTable.resolved.
    destruct (PyStr.if_true file_type); [reflexivity|].
    apply infer_file_type_table. }
  destruct (bool_decide (file_type = Some "SQLite")).
  - rewrite (bind_returns get_this _ _ _ _ eq_refl).
    rewrite dict_setitem_live by exact H3.
    eexists. exists o. repeat split. exact Ht.
  - eexists. exists o. repeat split. exact Ht.
Qed.

(** A witness for C2: an upper-case GeoJSON destination on a new builder. *)
Lemma set_output_file_type_witness :
  exists w' o,
    set_output (inr "/tmp/OUT.GeoJSON") None None None Sample.fresh = Returns tt w' /\
    output (this w') = Some o /\ out_file_type o = "GeoJSON".
Proof.
  exact (set_output_file_type Sample.fresh (inr "/tmp/OUT.GeoJSON") None None None
           eq_refl).
Defined.

(** C3.  For each of the three option layers the read accessor returns the
    merge of the internal dict with the user dict in which the user's value
    wins on every common key and the internal values fill in the other keys;
    the write accessor replaces the user dict only and leaves the internal
    one unchanged. *)
Theorem option_layers_merge (w : World) :
  well_formed w = true ->
  reads_merged dataset_creation_options
    _dataset_creation_options_internal _dataset_creation_options w /\
  reads_merged layer_creation_options
    _layer_creation_options_internal _layer_creation_options w /\
  reads_merged config_options
    _config_options_internal _config_options w /\
  replaces_user set_dataset_creation_options
    _dataset_creation_options_internal _dataset_creation_options w /\
  replaces_user set_layer_creation_options
    _layer_creation_options_internal _layer_creation_options w /\
  replaces_user set_config_options
    _config_options_internal _config_options w.
Proof.
  intros Hwf. apply well_formed_live in Hwf.
  destruct Hwf as (H1 & H2 & H3 & H4 & H5 & H6).
  split; [now apply getter_reads_merged|].
  split; [now apply getter_reads_merged|].
  split; [now apply getter_reads_merged|].
  repeat split; intros u; eexists; repeat split.
Qed.

(** A witness for C3: the session [Sample.to_postgis], whose internal
    config dict holds the encoding. *)
Lemma option_layers_merge_witness :
  reads_merged config_options _config_options_internal _config_options
    Sample.to_postgis.
Proof.
  exact (proj1 (proj2 (proj2 (option_layers_merge Sample.to_postgis eq_refl)))).
Defined.

(** C4 at its failing input: for the destination ["out.sqlite"] with no
    explicit file type the format resolves to ['SQLite'], yet the internal
    dataset-creation dict stays empty, the merged view has no ['SPATIALITE']
    entry and the argument list carries no [-dsco] option. *)
Theorem inferred_sqlite_lacks_spatialite :
  (exists o : OutputLayer,
     output (this Sample.to_sqlite) = Some o /\ out_file_type o = "SQLite") /\
  deref Sample.to_sqlite
        (_dataset_creation_options_internal (this Sample.to_sqlite)) = ∅ /\
  merged Sample.to_sqlite
         (_dataset_creation_options_internal (this Sample.to_sqlite))
         (_dataset_creation_options (this Sample.to_sqlite)) !! "SPATIALITE" = None /\
  exists w' : World,
    build_args map_to_list (fun _ => false) Sample.to_sqlite =
    Returns ([ "/usr/bin/ogr2ogr"; "-f"; "SQLite"; "-nln"; "roads.shp";
               "out.sqlite"; "/data/roads.shp" ],
             [ "/usr/bin/ogr2ogr"; "-f"; "SQLite"; "-nln"; "roads.shp";
               "out.sqlite"; "/data/roads.shp" ]) w'.
Proof.
  split; [eexists; split; reflexivity|].
  split; [reflexivity|].
  split; [reflexivity|].
  eexists. vm_compute. reflexivity.
Qed.

(** C8 (as amended).  Once [set_output] has been called, the geometry-type
    accessor returns the explicit override whenever one is present (a true
    value); with no override and the PostgreSQL output format it returns
    ['PROMOTE_TO_MULTI']; otherwise it returns the unset value as stored.
    It changes nothing.  Before [set_output] has been called it raises
    [AttributeError] on [out_file_type], whether or not an override is
    set. *)
Theorem geom_type_accessor (w : World) :
  (output (this w) = None ->
   geom_type w = Raises (AttributeError "out_file_type")) /\
  (forall o : OutputLayer,
     output (this w) = Some o ->
     exists g : option string,
       geom_type w = Returns g w /\
       (PyStr.truthy (_geom_type (this w)) = true -> g = _geom_type (this w)) /\
       (PyStr.truthy (_geom_type (this w)) = false ->
        out_file_type o = "PostgreSQL" -> g = Some "PROMOTE_TO_MULTI") /\
       (PyStr.truthy (_geom_type (this w)) = false ->
        out_file_type o <> "PostgreSQL" ->
        g = _geom_type (this w) /\ PyStr.truthy g = false)).
Proof.
  split.
  - intros Ho. unfold geom_type.
    rewrite (bind_returns get_this _ w w (this w) eq_refl).
    apply bind_raises. unfold get_output. now rewrite Ho.
  - intros o Ho. eexists. split; [apply (geom_type_returns w o Ho)|].
    unfold Protocol.geometry_type, PyStr.if_true.
    destruct (PyStr.truthy (_geom_type (this w))) eqn:Ht.
    + repeat split; try discriminate.
      destruct (_geom_type (this w)); [reflexivity|discriminate].
    + repeat split; try discriminate.
      * intros _ ->. reflexivity.
      * destruct (String.eqb_spec (out_file_type o) "PostgreSQL");
          [contradiction|reflexivity].
      * destruct (String.eqb_spec (out_file_type o) "PostgreSQL");
          [contradiction|exact Ht].
Qed.

(** A witness for C8: the PostgreSQL session with no override. *)
Lemma geom_type_accessor_witness :
  geom_type Sample.to_postgis = Returns (Some "PROMOTE_TO_MULTI") Sample.to_postgis.
Proof.
  destruct (proj2 (geom_type_accessor Sample.to_postgis)
              (mkOutput Sample.gis_db "PostgreSQL" (Some "roads") (Some "EPSG:4326"))
              eq_refl) as (g & Hg & _ & Hpg & _).
  rewrite Hg. f_equal. apply Hpg; reflexivity.
Defined.

(** The claim C8 fails as stated: on a new builder whose geometry type has
    been set to ['MULTIPOLYGON'], before [set_output], the accessor does not
    return the override; it raises [AttributeError]. *)
Lemma geom_type_before_set_output_counterexample :
  _geom_type (this (Sample.after (set_geom_type (Some "MULTIPOLYGON")) Sample.fresh))
    = Some "MULTIPOLYGON" /\
  geom_type (Sample.after (set_geom_type (Some "MULTIPOLYGON")) Sample.fresh)
    = Raises (AttributeError "out_file_type") /\
  ~ (exists w' : World,
       geom_type (Sample.after (set_geom_type (Some "MULTIPOLYGON")) Sample.fresh)
       = Returns (Some "MULTIPOLYGON") w').
Proof.
  split; [reflexivity|]. split; [reflexivity|].
  intros (w' & H). discriminate H.
Qed.

(** ** Execution *)

Section Claims.

Variable iteritems : dict -> list (string * string).
Hypothesis iteritems_items : forall d, iteritems d ≡ₚ map_to_list d.
Variable path_exists : string -> bool.
Variable Result : Type.
Variable process_result : list string -> Result.

(** C1.  On a fully configured builder [execute] returns, and the argument
    list it hands to the process runner is, in this order: the executable;
    the data-source mode flag; the layer mode flag; [-t_srs] with the output
    SRS if set; the input SRS flags if set; [-f] with the resolved file
    type; the [-dsco] options; the [-lco] options; the [--config] options
    (each group enumerating exactly the items of its merged dict); the
    [-nln] flag when a layer name resolves; [-nlt] with the geometry type if
    non-empty; the output destination, the input destination and, only if
    an input table name was given, that table name. *)
Theorem execute_argument_order (w : World) (i : InputLayer) (o : OutputLayer) :
  input (this w) = Some i -> output (this w) = Some o -> well_formed w = true ->
  let args :=
    [command (this w)] ++
    Protocol.data_source_flag (data_source_mode (this w)) ++
    Protocol.layer_flag (layer_mode (this w)) ++
    Protocol.target_srs (out_srs o) ++
    Protocol.source_srs (in_srs i) ++
    ["-f"; out_file_type o] ++
    Protocol.dsco (dsco_items iteritems w) ++
    Protocol.lco (lco_items iteritems w) ++
    Protocol.config (config_items iteritems w) ++
    Protocol.nln i o ++
    Protocol.nlt (_geom_type (this w)) (out_file_type o) ++
    [encode (out_ds o); encode (in_ds i)] ++
    match PyStr.if_true (in_table i) with
    | Some t => [t]
    | None => []
    end in
  dsco_items iteritems w ≡ₚ
    map_to_list (merged w (_dataset_creation_options_internal (this w))
                          (_dataset_creation_options (this w))) /\
  lco_items iteritems w ≡ₚ
    map_to_list (merged w (_layer_creation_options_internal (this w))
                          (_layer_creation_options (this w))) /\
  config_items iteritems w ≡ₚ
    map_to_list (merged w (_config_options_internal (this w))
                          (_config_options (this w))) /\
  exists (w' : World) (line : string),
    execute iteritems path_exists Result process_result w =
      Returns (process_result args) w' /\
    trace w' = trace w ++ [LogDebug line; DoExecute args].
Proof.
  intros Hi Ho Hwf args.
  repeat split; try apply iteritems_items.
  eexists. eexists. split.
  - rewrite (execute_returns iteritems path_exists Result process_result w i o Hi Ho Hwf).
    unfold Protocol.flags, Protocol.positional, Protocol.format.
    subst args. rewrite <- !app_assoc. reflexivity.
  - cbn [trace]. reflexivity.
Qed.

(** C5 (as amended).  The layer name is chosen by first match: the output
    table name, else the input table name, else, only for a file reference,
    the base filename of the input path, directories stripped and the
    extension kept; no [-nln] flag otherwise.  With input table name
    ['parcels'] and no output table name the value is ['parcels']; with the
    input file path ['/data/roads.shp'] and no table names it is
    ['roads.shp']. *)
Theorem layer_name_precedence (w : World) (i : InputLayer) (o : OutputLayer) :
  input (this w) = Some i -> output (this w) = Some o -> well_formed w = true ->
  exists (name_flag safe_args : list string) (w' : World),
    build_args iteritems path_exists w =
      Returns (([command (this w)] ++
                Protocol.data_source_flag (data_source_mode (this w)) ++
                Protocol.layer_flag (layer_mode (this w)) ++
                Protocol.target_srs (out_srs o) ++
                Protocol.source_srs (in_srs i) ++
                ["-f"; out_file_type o] ++
                Protocol.dsco (dsco_items iteritems w) ++
                Protocol.lco (lco_items iteritems w) ++
                Protocol.config (config_items iteritems w)) ++
               name_flag ++
               Protocol.nlt (_geom_type (this w)) (out_file_type o) ++
               Protocol.positional encode i o,
               safe_args) w' /\
    (forall t, PyStr.if_true (out_table o) = Some t -> name_flag = ["-nln"; t]) /\
    (PyStr.if_true (out_table o) = None ->
     forall t, PyStr.if_true (in_table i) = Some t -> name_flag = ["-nln"; t]) /\
    (PyStr.if_true (out_table o) = None -> PyStr.if_true (in_table i) = None ->
     is_file (in_ds i) = true ->
     name_flag = ["-nln"; basename (encode (in_ds i))]) /\
    (PyStr.if_true (out_table o) = None -> PyStr.if_true (in_table i) = None ->
     is_file (in_ds i) = false -> name_flag = []) /\
    (forall dir name : string,
       PyStr.contains name "/" = false ->
       basename (dir +:+ "/" +:+ name) = name) /\
    (out_table o = None -> in_table i = Some "parcels" ->
     name_flag = ["-nln"; "parcels"]) /\
    (out_table o = None -> in_table i = None ->
     in_ds i = FileConnectionString "/data/roads.shp" ->
     name_flag = ["-nln"; "roads.shp"]).
Proof.
  intros Hi Ho Hwf.
  exists (Protocol.nln i o). eexists. eexists. split.
  - rewrite (build_args_returns iteritems path_exists w i o Hi Ho Hwf).
    unfold Protocol.flags, Protocol.format. rewrite <- !app_assoc. reflexivity.
  - unfold Protocol.nln, Protocol.layer_name.
    split; [intros t ->; reflexivity|].
    split; [intros -> t ->; reflexivity|].
    split; [intros -> -> ->; reflexivity|].
    split; [intros -> -> ->; reflexivity|].
    split; [exact basename_strips_directories|].
    split; [intros -> ->; reflexivity|].
    intros -> -> ->. reflexivity.
Qed.

(** C6.  The data-source mode contributes exactly one [-update] flag for
    UPDATE, exactly one for CREATE_OR_UPDATE whether or not the destination
    exists, and none for CREATE: the argument list holds that many [-update]
    tokens besides those that are configured values, hence exactly that many
    when no configured value is the string [-update]. *)
Theorem update_flag_count (w : World) (i : InputLayer) (o : OutputLayer) :
  input (this w) = Some i -> output (this w) = Some o -> well_formed w = true ->
  exists (args safe_args : list string) (w' : World),
    build_args iteritems path_exists w = Returns (args, safe_args) w' /\
    (forall exists' : string -> bool,
       build_args iteritems exists' w = Returns (args, safe_args) w') /\
    let values :=
      value_tokens (this w) i o (dsco_items iteritems w) (lco_items iteritems w)
                   (config_items iteritems w) in
    (data_source_mode (this w) = MODE_DS_UPDATE ->
     occurrences "-update" args = 1 + occurrences "-update" values) /\
    (data_source_mode (this w) = MODE_DS_CREATE_OR_UPDATE ->
     occurrences "-update" args = 1 + occurrences "-update" values) /\
    (data_source_mode (this w) = MODE_DS_CREATE ->
     occurrences "-update" args = occurrences "-update" values) /\
    (~ In "-update" values ->
     (data_source_mode (this w) = MODE_DS_UPDATE ->
      occurrences "-update" args = 1) /\
     (data_source_mode (this w) = MODE_DS_CREATE_OR_UPDATE ->
      occurrences "-update" args = 1) /\
     (data_source_mode (this w) = MODE_DS_CREATE ->
      occurrences "-update" args = 0)).
Proof.
  intros Hi Ho Hwf. eexists. eexists. eexists.
  split; [apply (build_args_returns iteritems path_exists w i o Hi Ho Hwf)|].
  split; [intros exists'; apply (build_args_returns iteritems exists' w i o Hi Ho Hwf)|].
  intros values. subst values. rewrite occurrences_values.
  split; [intros ->; reflexivity|].
  split; [intros ->; reflexivity|].
  split; [intros ->; reflexivity|].
  intros Hv. rewrite (occurrences_absent _ _ Hv).
  repeat split; intros ->; reflexivity.
Qed.

(** C7.  Whenever an input SRS is set the argument list holds [-a_srs] and
    [-s_srs], each followed by that input SRS; whenever an output SRS is set
    it holds [-t_srs] followed by the output SRS.  The flags stand right
    after the mode flags, the target before the source. *)
Theorem srs_flags (w : World) (i : InputLayer) (o : OutputLayer) :
  input (this w) = Some i -> output (this w) = Some o -> well_formed w = true ->
  exists (args safe_args : list string) (w' : World),
    build_args iteritems path_exists w = Returns (args, safe_args) w' /\
    let modes :=
      [command (this w)] ++
      Protocol.data_source_flag (data_source_mode (this w)) ++
      Protocol.layer_flag (layer_mode (this w)) in
    (forall s, PyStr.if_true (in_srs i) = Some s ->
       in_srs i = Some s /\
       exists rest,
         args = (modes ++ Protocol.target_srs (out_srs o)) ++
                ["-a_srs"; s; "-s_srs"; s] ++ "-f" :: rest) /\
    (forall t, PyStr.if_true (out_srs o) = Some t ->
       out_srs o = Some t /\
       exists rest, args = modes ++ ["-t_srs"; t] ++ rest).
Proof.
  intros Hi Ho Hwf. eexists. eexists. eexists.
  split; [apply (build_args_returns iteritems path_exists w i o Hi Ho Hwf)|].
  intros modes. subst modes. unfold Protocol.flags, Protocol.format. split.
  - intros s Hs. split.
    + unfold PyStr.if_true in Hs. now destruct (PyStr.truthy (in_srs i)).
    + unfold Protocol.source_srs. rewrite Hs. eexists.
      rewrite <- !app_assoc. cbn [app]. reflexivity.
  - intros t Ht. split.
    + unfold PyStr.if_true in Ht. now destruct (PyStr.truthy (out_srs o)).
    + unfold Protocol.target_srs at 1. rewrite Ht. eexists.
      rewrite <- !app_assoc. cbn [app]. reflexivity.
Qed.

(** C9.  The list handed to the process runner and the list that is logged
    have the same length and the same token at every position except the
    two destination positions, where the first has the execution rendering
    and the second the display rendering; only the first reaches the process
    runner. *)
Theorem safe_args_parallel (w : World) (i : InputLayer) (o : OutputLayer) :
  input (this w) = Some i -> output (this w) = Some o -> well_formed w = true ->
  exists (args safe_args common table : list string) (w1 w' : World),
    build_args iteritems path_exists w = Returns (args, safe_args) w1 /\
    execute iteritems path_exists Result process_result w =
      Returns (process_result args) w' /\
    trace w' = trace w ++ [LogDebug (PyStr.join " " safe_args); DoExecute args] /\
    args = common ++ [encode (out_ds o); encode (in_ds i)] ++ table /\
    safe_args = common ++ [unicode (out_ds o); unicode (in_ds i)] ++ table /\
    length args = length safe_args /\
    (forall n : nat, n <> length common -> n <> S (length common) ->
       args !! n = safe_args !! n).
Proof.
  intros Hi Ho Hwf.
  exists (Protocol.flags (this w) i o (dsco_items iteritems w) (lco_items iteritems w)
            (config_items iteritems w) ++ Protocol.positional encode i o),
         (Protocol.flags (this w) i o (dsco_items iteritems w) (lco_items iteritems w)
            (config_items iteritems w) ++ Protocol.positional unicode i o),
         (Protocol.flags (this w) i o (dsco_items iteritems w) (lco_items iteritems w)
            (config_items iteritems w)),
         (match PyStr.if_true (in_table i) with Some t => [t] | None => [] end).
  eexists. eexists.
  split; [apply (build_args_returns iteritems path_exists w i o Hi Ho Hwf)|].
  split; [apply (execute_returns iteritems path_exists Result process_result w i o
                   Hi Ho Hwf)|].
  split; [reflexivity|].
  split; [reflexivity|].
  split; [reflexivity|].
  unfold Protocol.positional.
  generalize (Protocol.flags (this w) i o (dsco_items iteritems w)
                (lco_items iteritems w) (config_items iteritems w)) as common.
  generalize (match PyStr.if_true (in_table i) with Some t => [t] | None => [] end)
    as table.
  intros table common. split.
  - rewrite !length_app. reflexivity.
  - intros n H1 H2.
    destruct (Nat.lt_ge_cases n (length common)) as [Hlt|Hge].
    + now rewrite !lookup_app_l.
    + rewrite (lookup_app_r common _ n Hge), (lookup_app_r common _ n Hge).
      destruct (n - length common) as [|[|k]] eqn:E; [lia|lia|reflexivity].
Qed.

(** C10.  [execute] does not change the builder: afterwards every attribute
    is as before and every dict object that existed holds what it held (the
    merged views are new objects).  The argument list is a function of the
    attributes and of the contents of the option dicts alone: any world that
    agrees with this one on them yields the same list, and so does a second
    [execute]. *)
Theorem execute_frame (w : World) :
  configured w = true -> well_formed w = true ->
  exists (args : list string) (line : string) (w' : World),
    execute iteritems path_exists Result process_result w =
      Returns (process_result args) w' /\
    trace w' = trace w ++ [LogDebug line; DoExecute args] /\
    this w' = this w /\
    (forall r : ref, r < length (heap w) -> heap w' !! r = heap w !! r) /\
    configured w' = true /\ well_formed w' = true /\
    (forall v : World,
       this v = this w -> well_formed v = true ->
       (forall r : ref, r < length (heap w) -> deref v r = deref w r) ->
       exists v' : World,
         execute iteritems path_exists Result process_result v =
           Returns (process_result args) v' /\
         trace v' = trace v ++ [LogDebug line; DoExecute args] /\
         this v' = this w) /\
    exists w'' : World,
      execute iteritems path_exists Result process_result w' =
        Returns (process_result args) w'' /\
      trace w'' = trace w' ++ [LogDebug line; DoExecute args] /\
      this w'' = this w.
Proof.
  intros Hc Hwf. unfold configured in Hc.
  destruct (input (this w)) as [i|] eqn:Hi; [|discriminate].
  destruct (output (this w)) as [o|] eqn:Ho; [|discriminate].
  pose proof (execute_returns iteritems path_exists Result process_result w i o
                Hi Ho Hwf) as Hx. cbv zeta in Hx.
  eexists. eexists. eexists. split; [exact Hx|].
  set (w' := {| heap := heap (after_views w); this := this w; trace := _ |}).
  assert (Hheap : forall r : ref, r < length (heap w) -> heap w' !! r = heap w !! r).
  { intros r Hr. subst w'. unfold after_views, grow. cbn [heap].
    now apply lookup_app_l. }
  assert (Hwf' : well_formed w' = true).
  { apply well_formed_live in Hwf. destruct Hwf as (H1 & H2 & H3 & H4 & H5 & H6).
    unfold well_formed. subst w'. unfold after_views, grow. cbn [heap this forallb].
    rewrite length_app, !andb_true_iff, !Nat.ltb_lt. lia. }
  assert (Hpure : forall v : World,
            this v = this w -> well_formed v = true ->
            (forall r : ref, r < length (heap w) -> deref v r = deref w r) ->
            exists v' : World,
              execute iteritems path_exists Result process_result v =
                Returns (process_result
                           (Protocol.flags (this w) i o (dsco_items iteritems w)
                              (lco_items iteritems w) (config_items iteritems w)
                            ++ Protocol.positional encode i o)) v' /\
              trace v' = trace v ++
                [LogDebug (PyStr.join " "
                             (Protocol.flags (this w) i o (dsco_items iteritems w)
                                (lco_items iteritems w) (config_items iteritems w)
                              ++ Protocol.positional unicode i o));
                 DoExecute (Protocol.flags (this w) i o (dsco_items iteritems w)
                              (lco_items iteritems w) (config_items iteritems w)
                            ++ Protocol.positional encode i o)] /\
              this v' = this w).
  { intros v Hthis Hwfv Hderef.
    assert (Hiv : input (this v) = Some i) by now rewrite Hthis.
    assert (Hov : output (this v) = Some o) by now rewrite Hthis.
    pose proof (execute_returns iteritems path_exists Result process_result v i o
                  Hiv Hov Hwfv) as Hv. cbv zeta in Hv.
    apply well_formed_live in Hwf. destruct Hwf as (H1 & H2 & H3 & H4 & H5 & H6).
    unfold dsco_items, lco_items, config_items, merged in Hv.
    rewrite Hthis in Hv.
    rewrite !Hderef in Hv by assumption.
    eexists. split; [exact Hv|]. split; reflexivity. }
  split; [reflexivity|].
  split; [reflexivity|].
  split; [exact Hheap|].
  split; [subst w'; unfold configured; cbn [this]; now rewrite Hi, Ho|].
  split; [exact Hwf'|].
  split; [exact Hpure|].
  apply (Hpure w' eq_refl Hwf').
  intros r Hr. unfold deref. now rewrite Hheap.
Qed.

End Claims.
(** A witness for C1: the session [Sample.to_postgis]. *)
Lemma execute_argument_order_witness :
  exists w' line,
    execute map_to_list (fun _ => false) (list string) (fun args => args)
            Sample.to_postgis =
      Returns [ "/usr/bin/ogr2ogr"; "-update"; "-append";
                "-t_srs"; "EPSG:4326";
                "-a_srs"; "EPSG:25830"; "-s_srs"; "EPSG:25830";
                "-f"; "PostgreSQL";
                "--config"; "SHAPE_ENCODING"; "latin1";
                "-nln"; "roads"; "-nlt"; "PROMOTE_TO_MULTI";
                "PG:dbname='gis' password='secret'"; "/data/roads.shp" ] w' /\
    trace w' =
      [ LogDebug line;
        DoExecute [ "/usr/bin/ogr2ogr"; "-update"; "-append";
                    "-t_srs"; "EPSG:4326";
                    "-a_srs"; "EPSG:25830"; "-s_srs"; "EPSG:25830";
                    "-f"; "PostgreSQL";
                    "--config"; "SHAPE_ENCODING"; "latin1";
                    "-nln"; "roads"; "-nlt"; "PROMOTE_TO_MULTI";
                    "PG:dbname='gis' password='secret'"; "/data/roads.shp" ] ].
Proof.
  destruct (execute_argument_order map_to_list (fun d => Permutation_refl _)
              (fun _ => false) (list string) (fun args => args)
              Sample.to_postgis
              (mkInput (FileConnectionString "/data/roads.shp") None
                       (Some "EPSG:25830") (Some "latin1"))
              (mkOutput Sample.gis_db "PostgreSQL" (Some "roads") (Some "EPSG:4326"))
              eq_refl eq_refl eq_refl) as (_ & _ & _ & w' & line & Hx & Ht).
  exists w', line. split; [exact Hx | exact Ht].
Defined.

(** The claim C5 fails as stated: for the input file path
    ['/data/roads.shp'] and no table names the [-nln] value is
    ['roads.shp'], not ['roads']. *)
Lemma layer_name_roads_counterexample :
  exists args safe_args w',
    build_args map_to_list (fun _ => false) Sample.roads =
      Returns (args, safe_args) w' /\
    flag_value "-nln" args = Some "roads.shp" /\
    flag_value "-nln" args <> Some "roads".
Proof.
  eexists. eexists. eexists. split; [vm_compute; reflexivity|].
  split; [reflexivity|discriminate].
Qed.

(** The first example of C5 on the session [Sample.parcels]: the layer name
    is the input table name. *)
Example parcels_layer_name :
  exists args safe_args w',
    build_args map_to_list (fun _ => false) Sample.parcels =
      Returns (args, safe_args) w' /\
    flag_value "-nln" args = Some "parcels".
Proof.
  eexists. eexists. eexists. split; [vm_compute; reflexivity|reflexivity].
Qed.

(** A witness for C5: the session [Sample.roads]. *)
Lemma layer_name_precedence_witness :
  exists name_flag safe_args w',
    build_args map_to_list (fun _ => false) Sample.roads =
      Returns ([ "/usr/bin/ogr2ogr"; "-f"; "ESRI Shapefile" ] ++ name_flag ++
               [ "out.shp"; "/data/roads.shp" ], safe_args) w' /\
    name_flag = ["-nln"; "roads.shp"].
Proof.
  destruct (layer_name_precedence map_to_list (fun _ => false) Sample.roads
              (mkInput (FileConnectionString "/data/roads.shp") None None None)
              (mkOutput (FileConnectionString "out.shp") "ESRI Shapefile" None None)
              eq_refl eq_refl eq_refl)
    as (nf & safe & w' & Hb & _ & _ & _ & _ & _ & _ & Hroads).
  exists nf, safe, w'. split; [exact Hb | apply Hroads; reflexivity].
Defined.

(** A witness for C6: the session [Sample.to_postgis], in UPDATE mode. *)
Lemma update_flag_count_witness :
  exists args safe_args w',
    build_args map_to_list (fun _ => false) Sample.to_postgis =
      Returns (args, safe_args) w' /\
    occurrences "-update" args = 1.
Proof.
  destruct (update_flag_count map_to_list (fun _ => false) Sample.to_postgis
              (mkInput (FileConnectionString "/data/roads.shp") None
                       (Some "EPSG:25830") (Some "latin1"))
              (mkOutput Sample.gis_db "PostgreSQL" (Some "roads") (Some "EPSG:4326"))
              eq_refl eq_refl eq_refl)
    as (args & safe & w' & Hb & _ & _ & _ & _ & Hclean).
  exists args, safe, w'. split; [exact Hb|].
  refine (proj1 (Hclean _) eq_refl).
  intros H. vm_compute in H.
  repeat (destruct H as [H|H]; [discriminate H|]). exact H.
Defined.

(** A witness for C7: the session [Sample.to_postgis]. *)
Lemma srs_flags_witness :
  exists args safe_args w' rest,
    build_args map_to_list (fun _ => false) Sample.to_postgis =
      Returns (args, safe_args) w' /\
    args = [ "/usr/bin/ogr2ogr"; "-update"; "-append"; "-t_srs"; "EPSG:4326" ] ++
           [ "-a_srs"; "EPSG:25830"; "-s_srs"; "EPSG:25830" ] ++ "-f" :: rest.
Proof.
  destruct (srs_flags map_to_list (fun _ => false) Sample.to_postgis
              (mkInput (FileConnectionString "/data/roads.shp") None
                       (Some "EPSG:25830") (Some "latin1"))
              (mkOutput Sample.gis_db "PostgreSQL" (Some "roads") (Some "EPSG:4326"))
              eq_refl eq_refl eq_refl)
    as (args & safe & w' & Hb & Hin & _).
  destruct (Hin "EPSG:25830" eq_refl) as (_ & rest & Hargs).
  exists args, safe, w', rest. split; [exact Hb | exact Hargs].
Defined.

(** A witness for C9: the session [Sample.to_postgis], whose destination
    renders differently for execution and for display. *)
Lemma safe_args_parallel_witness :
  exists args safe_args w1,
    build_args map_to_list (fun _ => false) Sample.to_postgis =
      Returns (args, safe_args) w1 /\
    length args = length safe_args.
Proof.
  destruct (safe_args_parallel map_to_list (fun _ => false) (list string)
              (fun args => args) Sample.to_postgis
              (mkInput (FileConnectionString "/data/roads.shp") None
                       (Some "EPSG:25830") (Some "latin1"))
              (mkOutput Sample.gis_db "PostgreSQL" (Some "roads") (Some "EPSG:4326"))
              eq_refl eq_refl eq_refl)
    as (args & safe & common & table & w1 & w' & Hb & _ & _ & _ & _ & Hlen & _).
  exists args, safe, w1. split; [exact Hb | exact Hlen].
Defined.

(** A witness for C10: the session [Sample.to_postgis]. *)
Lemma execute_frame_witness :
  exists args w',
    execute map_to_list (fun _ => false) (list string) (fun args => args)
            Sample.to_postgis = Returns args w' /\
    this w' = this Sample.to_postgis.
Proof.
  destruct (execute_frame map_to_list (fun _ => false) (list string)
              (fun args => args) Sample.to_postgis eq_refl eq_refl)
    as (args & line & w' & Hx & _ & Hthis & _).
  exists args, w'. split; [exact Hx | exact Hthis].
Defined.

(** * Further properties of the builder *)

(** ** What the setters leave behind *)

Lemma set_input_returns (w : World) (input_ds : ConnectionString + string)
    (table_name srs encoding : option string) :
  well_formed w = true ->
  set_input input_ds table_name srs encoding w =
  Returns tt
    {| heap :=
         match PyStr.if_true encoding with
         | Some e =>
             <[_config_options_internal (this w) :=
                 <["SHAPE_ENCODING" := e]>
                   (deref w (_config_options_internal (this w)))]> (heap w)
         | None => heap w
         end;
       this := with_input {| in_ds := as_connection input_ds;
                             in_table := table_name;
                             in_srs := srs;
                             in_encoding := encoding |} (this w);
       trace := trace w |}.
Proof.
  intros Hwf. apply well_formed_live in Hwf.
  destruct Hwf as (_ & _ & _ & _ & _ & H6).
  unfold set_input.
  set (i := {| in_ds := as_connection input_ds; in_table := table_name;
               in_srs := srs; in_encoding := encoding |}).
  rewrite (bind_returns _ _ w
             {| heap := heap w; this := with_input i (this w); trace := trace w |} tt)
    by reflexivity.
  destruct (PyStr.if_true encoding) as [e|]; [|reflexivity].
  rewrite (bind_returns get_this _ _ _ _ eq_refl).
  now rewrite dict_setitem_live by exact H6.
Qed.

Lemma set_output_returns (w : World) (output_ds : ConnectionString + string)
    (file_type table_name srs : option string) :
  well_formed w = true ->
  set_output output_ds file_type table_name srs w =
  Returns tt
    {| heap :=
         if bool_decide (file_type = Some "SQLite") then
           <[_dataset_creation_options_internal (this w) :=
               <["SPATIALITE" := "YES"]>
                 (deref w (_dataset_creation_options_internal (this w)))]> (heap w)
         else heap w;
       this := with_output
                 {| out_ds := as_connection output_ds;
                    out_file_type :=
                      FormatTable.resolved file_type (encode (as_connection output_ds));
                    out_table := table_name;
                    out_srs := srs |} (this w);
       trace := trace w |}.
Proof.
  intros Hwf. apply well_formed_live in Hwf.
  destruct Hwf as (_ & _ & H3 & _).
  unfold set_output.
  assert (E : match PyStr.if_true file_type with
              | Some t => t
              | None => infer_file_type (PyStr.lower (encode (as_connection output_ds)))
              end = FormatTable.resolved file_type (encode (as_connection output_ds))).
  { unfold FormatTable.resolved. destruct (PyStr.if_true file_type); [reflexivity|].
    apply infer_file_type_table. }
  rewrite E.
  set (o := {| out_ds := as_connection output_ds; out_file_type := _;
               out_table := table_name; out_srs := srs |}).
  rewrite (bind_returns _ _ w
             {| heap := heap w; this := with_output o (this w); trace := trace w |} tt)
    by reflexivity.
  destruct (bool_decide (file_type = Some "SQLite")); [|reflexivity].
  rewrite (bind_returns get_this _ _ _ _ eq_refl).
  now rewrite dict_setitem_live by exact H3.
Qed.

Lemma deref_insert_eq (h : list dict) (s : Ogr2ogr) (tr : list event) (r : ref)
    (d : dict) :
  r < length h ->
  deref {| heap := <[r := d]> h; this := s; trace := tr |} r = d.
Proof.
  intros H. unfold deref. cbn [heap]. now rewrite list_lookup_insert_eq.
Qed.

Lemma deref_insert_ne (h : list dict) (s s' : Ogr2ogr) (tr tr' : list event)
    (r r' : ref) (d : dict) :
  r <> r' ->
  deref {| heap := <[r := d]> h; this := s; trace := tr |} r' =
  deref {| heap := h; this := s'; trace := tr' |} r'.
Proof.
  intros H. unfold deref. cbn [heap]. now rewrite list_lookup_insert_ne.
Qed.

Lemma set_input_keeps_well_formed (w w' : World)
    (input_ds : ConnectionString + string) (table_name srs encoding : option string) :
  well_formed w = true ->
  set_input input_ds table_name srs encoding w = Returns tt w' ->
  well_formed w' = true.
Proof.
  intros Hwf H.
  destruct (set_input_well_formed w input_ds table_name srs encoding Hwf)
    as (w1 & H1 & Hwf1 & _).
  rewrite H1 in H. now inversion H; subst.
Qed.

Lemma set_output_keeps_well_formed (w w' : World)
    (output_ds : ConnectionString + string) (file_type table_name srs : option string) :
  well_formed w = true ->
  set_output output_ds file_type table_name srs w = Returns tt w' ->
  well_formed w' = true.
Proof.
  intros Hwf H.
  destruct (set_output_well_formed w output_ds file_type table_name srs Hwf)
    as (w1 & o & H1 & Hwf1 & _).
  rewrite H1 in H. now inversion H; subst.
Qed.

(** X1.  [set_input] with an encoding stores it under ['SHAPE_ENCODING'] in
    the internal config dict and touches nothing else: every other dict
    object and every other key is as before, and the merged config options
    show the encoding unless the user dict has that key.  Without an
    encoding (none, or the empty string) no dict changes at all. *)
Theorem set_input_encoding_default (w : World)
    (input_ds : ConnectionString + string) (table_name srs encoding : option string) :
  well_formed w = true ->
  let internal := _config_options_internal (this w) in
  let user := _config_options (this w) in
  exists w' : World,
    set_input input_ds table_name srs encoding w = Returns tt w' /\
    _config_options_internal (this w') = internal /\
    _config_options (this w') = user /\
    (forall r : ref, r <> internal -> heap w' !! r = heap w !! r) /\
    (forall k : string, k <> "SHAPE_ENCODING" ->
       deref w' internal !! k = deref w internal !! k) /\
    (forall e : string, PyStr.if_true encoding = Some e ->
       deref w' internal !! "SHAPE_ENCODING" = Some e /\
       (user <> internal ->
        merged w' internal user !! "SHAPE_ENCODING" =
        match deref w user !! "SHAPE_ENCODING" with
        | Some u => Some u
        | None => Some e
        end)) /\
    (PyStr.if_true encoding = None -> heap w' = heap w).
Proof.
  intros Hwf internal user.
  pose proof (well_formed_live w Hwf) as (_ & _ & _ & _ & _ & H6).
  eexists. split; [apply (set_input_returns w _ _ _ _ Hwf)|].
  split; [reflexivity|]. split; [reflexivity|].
  fold internal. destruct (PyStr.if_true encoding) as [e|].
  - split; [intros r Hr; cbn [heap]; now rewrite list_lookup_insert_ne|].
    split.
    { intros k Hk. rewrite deref_insert_eq by exact H6.
      now rewrite lookup_insert_ne. }
    split; [|discriminate].
    intros e' [= <-]. rewrite deref_insert_eq by exact H6.
    split; [apply lookup_insert_eq|].
    intros Hne. rewrite merged_lookup.
    rewrite (deref_insert_ne _ _ (this w) _ (trace w) internal user) by congruence.
    rewrite deref_insert_eq by exact H6. rewrite lookup_insert_eq.
    now destruct w.
  - split; [reflexivity|]. split; [reflexivity|]. split; [discriminate|reflexivity].
Qed.

(** A witness for X1: a Latin-1 shapefile on a new builder. *)
Lemma set_input_encoding_default_witness :
  exists w' : World,
    set_input (inr "/data/roads.shp") None None (Some "latin1") Sample.fresh =
      Returns tt w' /\
    merged w' 5 4 !! "SHAPE_ENCODING" = Some "latin1".
Proof.
  destruct (set_input_encoding_default Sample.fresh (inr "/data/roads.shp") None None
              (Some "latin1") eq_refl)
    as (w' & Hs & _ & _ & _ & _ & He & _).
  exists w'. split; [exact Hs|].
  destruct (He "latin1" eq_refl) as (_ & Hm).
  apply Hm. discriminate.
Defined.

(** X2.  The internal defaults only accumulate.  After [set_output] with the
    explicit ['SQLite'] type, a second [set_output] replaces the output
    attributes (the file type is resolved from the second call alone) but the
    spatialite entry stays in the internal dataset-creation dict; after
    [set_input] with an encoding, a second [set_input] without one resets
    [in_encoding] but the first encoding stays in the internal config
    dict. *)
Theorem internal_defaults_accumulate (w : World) :
  well_formed w = true ->
  (forall (ds1 ds2 : ConnectionString + string)
          (table1 srs1 file_type2 table2 srs2 : option string),
     exists (w' : World) (o : OutputLayer),
       (set_output ds1 (Some "SQLite") table1 srs1;;
        set_output ds2 file_type2 table2 srs2) w = Returns tt w' /\
       output (this w') = Some o /\
       out_ds o = as_connection ds2 /\
       out_file_type o = FormatTable.resolved file_type2 (encode (as_connection ds2)) /\
       out_table o = table2 /\ out_srs o = srs2 /\
       deref w' (_dataset_creation_options_internal (this w')) !! "SPATIALITE"
         = Some "YES") /\
  (forall (ds1 ds2 : ConnectionString + string)
          (table1 srs1 encoding1 table2 srs2 encoding2 : option string) (e : string),
     PyStr.if_true encoding1 = Some e -> PyStr.if_true encoding2 = None ->
     exists (w' : World) (i : InputLayer),
       (set_input ds1 table1 srs1 encoding1;;
        set_input ds2 table2 srs2 encoding2) w = Returns tt w' /\
       input (this w') = Some i /\
       in_ds i = as_connection ds2 /\ in_table i = table2 /\ in_srs i = srs2 /\
       in_encoding i = encoding2 /\
       deref w' (_config_options_internal (this w')) !! "SHAPE_ENCODING" = Some e).
Proof.
  intros Hwf.
  pose proof (well_formed_live w Hwf) as (_ & _ & H3 & _ & _ & H6).
  split.
  - intros ds1 ds2 table1 srs1 file_type2 table2 srs2.
    pose proof (set_output_returns w ds1 (Some "SQLite") table1 srs1 Hwf) as E1.
    rewrite bool_decide_eq_true_2 in E1 by reflexivity.
    pose proof (set_output_keeps_well_formed _ _ _ _ _ _ Hwf E1) as Hwf1.
    pose proof (set_output_returns _ ds2 file_type2 table2 srs2 Hwf1) as E2.
    eexists. eexists. split.
    { rewrite (bind_returns _ _ _ _ _ E1). exact E2. }
    split; [reflexivity|].
    split; [reflexivity|]. split; [reflexivity|].
    split; [reflexivity|]. split; [reflexivity|].
    cbn [this heap with_output _dataset_creation_options_internal].
    assert (Hlen : _dataset_creation_options_internal (this w) <
                   length (<[_dataset_creation_options_internal (this w) :=
                               <["SPATIALITE" := "YES"]>
                                 (deref w (_dataset_creation_options_internal (this w)))]>
                             (heap w))) by now rewrite length_insert.
    destruct (bool_decide (file_type2 = Some "SQLite")).
    + rewrite deref_insert_eq by exact Hlen. apply lookup_insert_eq.
    + rewrite deref_insert_eq by exact H3. apply lookup_insert_eq.
  - intros ds1 ds2 table1 srs1 encoding1 table2 srs2 encoding2 e He1 He2.
    pose proof (set_input_returns w ds1 table1 srs1 encoding1 Hwf) as E1.
    rewrite He1 in E1.
    pose proof (set_input_keeps_well_formed _ _ _ _ _ _ Hwf E1) as Hwf1.
    pose proof (set_input_returns _ ds2 table2 srs2 encoding2 Hwf1) as E2.
    rewrite He2 in E2.
    eexists. eexists. split.
    { rewrite (bind_returns _ _ _ _ _ E1). exact E2. }
    split; [reflexivity|].
    split; [reflexivity|]. split; [reflexivity|].
    split; [reflexivity|]. split; [reflexivity|].
    cbn [this heap with_input _config_options_internal].
    rewrite deref_insert_eq by exact H6. apply lookup_insert_eq.
Qed.

(** A witness for X2: a builder retargeted from SQLite to a shapefile. *)
Lemma internal_defaults_accumulate_witness :
  exists (w' : World) (o : OutputLayer),
    (set_output (inr "out.db") (Some "SQLite") None None;;
     set_output (inr "out.shp") None None None) Sample.fresh = Returns tt w' /\
    output (this w') = Some o /\
    out_file_type o = "ESRI Shapefile" /\
    deref w' (_dataset_creation_options_internal (this w')) !! "SPATIALITE"
      = Some "YES".
Proof.
  destruct (proj1 (internal_defaults_accumulate Sample.fresh eq_refl)
              (inr "out.db") (inr "out.shp") None None None None None)
    as (w' & o & Hs & Ho & _ & Ht & _ & _ & Hd).
  exists w', o. split; [exact Hs|]. split; [exact Ho|]. split; [exact Ht|exact Hd].
Defined.

(** ** Suffix tests *)

Lemma substring_full (s : string) : substring 0 (String.length s) s = s.
Proof. induction s as [|c r IH]; cbn; [reflexivity|now rewrite IH]. Qed.

Lemma substring_split (k m : nat) (s : string) :
  k + m = String.length s -> s = substring 0 k s +:+ substring k m s.
Proof.
  revert s. induction k as [|k IH]; intros s H.
  - cbn in H. subst m. rewrite substring_full. now destruct s.
  - destruct s as [|c r]; [discriminate|]. cbn in H.
    change (substring 0 (S k) (String c r)) with (String c (substring 0 k r)).
    change (substring (S k) m (String c r)) with (substring k m r).
    change (String c (substring 0 k r) +:+ substring k m r)
      with (String c (substring 0 k r +:+ substring k m r)).
    f_equal. apply IH. lia.
Qed.

Lemma length_append (s1 s2 : string) :
  String.length (s1 +:+ s2) = String.length s1 + String.length s2.
Proof.
  induction s1 as [|c r IH]; [reflexivity|].
  change (String c r +:+ s2) with (String c (r +:+ s2)). cbn. now rewrite IH.
Qed.

Lemma substring_past (p s : string) (k m : nat) :
  substring (String.length p + k) m (p +:+ s) = substring k m s.
Proof.
  induction p as [|c r IH]; [reflexivity|].
  change (String c r +:+ s) with (String c (r +:+ s)). exact IH.
Qed.

(** A string ends with [suf] exactly when it is something followed by
    [suf]. *)
Lemma endswith_decompose (s suf : string) :
  PyStr.endswith s suf = true -> exists p : string, s = p +:+ suf.
Proof.
  unfold PyStr.endswith. intros H. apply andb_true_iff in H as [Hle Heq].
  apply Nat.leb_le in Hle. apply String.eqb_eq in Heq.
  exists (substring 0 (String.length s - String.length suf) s).
  pose proof (substring_split (String.length s - String.length suf)
                (String.length suf) s) as E.
  rewrite Heq in E. apply E. lia.
Qed.

Lemma endswith_append (p s suf : string) :
  String.length suf <= String.length s ->
  PyStr.endswith (p +:+ s) suf = PyStr.endswith s suf.
Proof.
  intros H. unfold PyStr.endswith. rewrite length_append.
  replace (String.length p + String.length s - String.length suf)
    with (String.length p + (String.length s - String.length suf)) by lia.
  rewrite substring_past.
  rewrite (proj2 (Nat.leb_le _ _) H).
  now rewrite (proj2 (Nat.leb_le (String.length suf)
                        (String.length p + String.length s))) by lia.
Qed.

(** Of two suffixes of one string the shorter is a suffix of the longer. *)
Lemma endswith_both (s a b : string) :
  PyStr.endswith s a = true -> PyStr.endswith s b = true ->
  String.length a <= String.length b -> PyStr.endswith b a = true.
Proof.
  intros Ha Hb Hle. destruct (endswith_decompose s b Hb) as (p & ->).
  now rewrite endswith_append in Ha.
Qed.

Lemma endswith_exclusive (s a b : string) :
  PyStr.endswith s a = true ->
  (if String.length a <=? String.length b
   then PyStr.endswith b a else PyStr.endswith a b) = false ->
  PyStr.endswith s b = false.
Proof.
  intros Ha Hx. destruct (PyStr.endswith s b) eqn:Hb; [|reflexivity].
  destruct (Nat.leb_spec (String.length a) (String.length b)) as [Hle|Hlt].
  - now rewrite (endswith_both s a b Ha Hb Hle) in Hx.
  - now rewrite (endswith_both s b a Hb Ha) in Hx by lia.
Qed.

(** X9.  The suffix tests of [set_output] never compete: a lower-cased
    destination ends with at most one of the listed suffixes, so every
    suffix gives its own type whatever the order of the tests, unless the
    destination starts with [pg:], which only ['.shp'] outranks. *)
Theorem suffix_rules_do_not_overlap (dslower : string) :
  (PyStr.endswith dslower ".shp" = true ->
   infer_file_type dslower = "ESRI Shapefile") /\
  (PyStr.startswith dslower "pg:" = true ->
   PyStr.endswith dslower ".shp" = false ->
   infer_file_type dslower = "PostgreSQL") /\
  (PyStr.startswith dslower "pg:" = false ->
   (PyStr.endswith dslower ".sqlite" = true -> infer_file_type dslower = "SQLite") /\
   (PyStr.endswith dslower ".json" = true -> infer_file_type dslower = "GeoJSON") /\
   (PyStr.endswith dslower ".geojson" = true -> infer_file_type dslower = "GeoJSON") /\
   (PyStr.endswith dslower ".gml" = true -> infer_file_type dslower = "GML") /\
   (PyStr.endswith dslower ".csv" = true -> infer_file_type dslower = "CSV") /\
   (PyStr.endswith dslower ".gpx" = true -> infer_file_type dslower = "GPX") /\
   (PyStr.endswith dslower ".kml" = true -> infer_file_type dslower = "KML")).
Proof.
  unfold infer_file_type.
  split; [intros ->; reflexivity|].
  split; [intros -> ->; reflexivity|].
  intros ->.
  repeat split; intros H;
    rewrite ?(endswith_exclusive dslower _ ".shp" H eq_refl),
            ?(endswith_exclusive dslower _ ".sqlite" H eq_refl),
            ?(endswith_exclusive dslower _ ".json" H eq_refl),
            ?(endswith_exclusive dslower _ ".geojson" H eq_refl),
            ?(endswith_exclusive dslower _ ".gml" H eq_refl),
            ?(endswith_exclusive dslower _ ".csv" H eq_refl),
            ?(endswith_exclusive dslower _ ".gpx" H eq_refl);
    rewrite ?H, ?orb_true_r; reflexivity.
Qed.

(** ** Option dicts are shared by reference *)

Lemma getter_edit_is_lost (w : World) (internal user : Ogr2ogr -> ref) :
  internal (this w) < length (heap w) -> user (this w) < length (heap w) ->
  edit_is_lost (self ← get_this; merged_options (internal self) (user self))
               internal user w.
Proof.
  intros Hi Hu k v.
  set (m := merged w (internal (this w)) (user (this w))).
  exists (length (heap w)),
         {| heap := heap w ++ [<[k := v]> m]; this := this w; trace := trace w |}.
  split.
  { rewrite (bind_returns _ _ _ _ _ (getter_returns w internal user Hi Hu)).
    fold m.
    assert (Hlive : length (heap w) < length (heap (grow w [m])))
      by (unfold grow; cbn [heap]; rewrite length_app; cbn; lia).
    rewrite (bind_returns _ _ _ _ _ (dict_setitem_live _ _ k v Hlive)).
    unfold mret, M_mret, M_ret. f_equal. unfold grow, deref. cbn [heap this trace].
    rewrite list_lookup_middle by reflexivity. cbn [default].
    f_equal. rewrite insert_app_r_alt by lia. now rewrite Nat.sub_diag. }
  cbn [heap this].
  split; [now rewrite list_lookup_middle|].
  split; [reflexivity|].
  assert (Hl : forall l : ref, l < length (heap w) ->
               (heap w ++ [<[k := v]> m]) !! l = heap w !! l)
    by (intros l Hl; now apply lookup_app_l).
  split; [exact Hl|].
  unfold merged at 1, deref. cbn [heap]. rewrite !Hl by assumption. reflexivity.
Qed.

(** X7.  Item assignment through an option property is lost: for each of
    the three properties, [ogr.<options>[k] = v] changes only the copy the
    getter has just made; the builder, every dict that existed and the
    merged view read afterwards are as before. *)
Theorem property_item_assignment_is_lost (w : World) :
  well_formed w = true ->
  edit_is_lost dataset_creation_options
    _dataset_creation_options_internal _dataset_creation_options w /\
  edit_is_lost layer_creation_options
    _layer_creation_options_internal _layer_creation_options w /\
  edit_is_lost config_options
    _config_options_internal _config_options w.
Proof.
  intros Hwf. apply well_formed_live in Hwf.
  destruct Hwf as (H1 & H2 & H3 & H4 & H5 & H6).
  split; [now apply getter_edit_is_lost|].
  split; now apply getter_edit_is_lost.
Qed.

(** A witness for X7: the session [Sample.to_postgis]. *)
Lemma property_item_assignment_is_lost_witness :
  edit_is_lost config_options _config_options_internal _config_options
    Sample.to_postgis.
Proof.
  exact (proj2 (proj2 (property_item_assignment_is_lost Sample.to_postgis eq_refl))).
Defined.

Lemma setter_later_edit_shows (w : World) (internal user : Ogr2ogr -> ref)
    (put : ref -> Ogr2ogr -> Ogr2ogr) :
  (forall r s, user (put r s) = r) ->
  (forall r s, internal (put r s) = internal s) ->
  internal (this w) < length (heap w) ->
  later_edit_shows (fun r => modify_this (put r))
    (self ← get_this; merged_options (internal self) (user self)) w.
Proof.
  intros Huser Hinternal Hi r k v Hr.
  set (w0 := {| heap := heap w; this := put r (this w); trace := trace w |}).
  set (w1 := {| heap := <[r := <[k := v]> (deref w0 r)]> (heap w);
                this := put r (this w); trace := trace w |}).
  assert (E1 : ((fun r => modify_this (put r)) r;; dict_setitem r k v) w =
               Returns tt w1).
  { cbv beta. rewrite (bind_returns (modify_this (put r)) _ w w0 tt eq_refl).
    now rewrite dict_setitem_live by exact Hr. }
  assert (Hi1 : internal (this w1) < length (heap w1))
    by (unfold w1; cbn [heap this]; now rewrite Hinternal, length_insert).
  assert (Hu1 : user (this w1) < length (heap w1))
    by (unfold w1; cbn [heap this]; now rewrite Huser, length_insert).
  exists w1, (grow w1 [merged w1 (internal (this w1)) (user (this w1))]),
         (length (heap w1)), (merged w1 (internal (this w1)) (user (this w1))).
  split; [exact E1|].
  split; [now apply getter_returns|].
  split; [unfold grow; cbn [heap]; now rewrite list_lookup_middle|].
  rewrite merged_lookup.
  replace (deref w1 (user (this w1)) !! k) with (Some v); [reflexivity|].
  unfold w1 at 2. cbn [this]. rewrite Huser. unfold w1.
  rewrite deref_insert_eq by exact Hr. now rewrite lookup_insert_eq.
Qed.

(** X8.  The option setters keep the caller's dict, not a copy of it: for
    each of the three properties, an item stored into the dict after it was
    assigned shows in the merged view that is read next. *)
Theorem setter_shares_the_dict (w : World) :
  well_formed w = true ->
  later_edit_shows set_dataset_creation_options dataset_creation_options w /\
  later_edit_shows set_layer_creation_options layer_creation_options w /\
  later_edit_shows set_config_options config_options w.
Proof.
  intros Hwf. apply well_formed_live in Hwf.
  destruct Hwf as (H1 & H2 & H3 & H4 & H5 & H6).
  split; [|split].
  - apply (setter_later_edit_shows w _dataset_creation_options_internal
             _dataset_creation_options with_dataset_creation_options);
      [reflexivity|reflexivity|exact H3].
  - apply (setter_later_edit_shows w _layer_creation_options_internal
             _layer_creation_options with_layer_creation_options);
      [reflexivity|reflexivity|exact H4].
  - apply (setter_later_edit_shows w _config_options_internal
             _config_options with_config_options);
      [reflexivity|reflexivity|exact H6].
Qed.

(** A witness for X8: the session [Sample.to_postgis] and its own user
    config dict. *)
Lemma setter_shares_the_dict_witness :
  exists (w1 w2 : World) (view : ref) (d : dict),
    (set_config_options 4;; dict_setitem 4 "PG_USE_COPY" "YES") Sample.to_postgis =
      Returns tt w1 /\
    config_options w1 = Returns view w2 /\
    heap w2 !! view = Some d /\
    d !! "PG_USE_COPY" = Some "YES".
Proof.
  refine (proj2 (proj2 (setter_shares_the_dict Sample.to_postgis eq_refl))
            4 "PG_USE_COPY" "YES" _).
  vm_compute. lia.
Defined.

(** X10.  [set_input] and [set_output] may be called in either order: both
    orders leave the same builder and the same dicts. *)
Theorem set_input_set_output_commute (w : World)
    (input_ds output_ds : ConnectionString + string)
    (in_table_name in_srs' encoding file_type out_table_name out_srs' : option string) :
  well_formed w = true ->
  exists w' : World,
    (set_input input_ds in_table_name in_srs' encoding;;
     set_output output_ds file_type out_table_name out_srs') w = Returns tt w' /\
    (set_output output_ds file_type out_table_name out_srs';;
     set_input input_ds in_table_name in_srs' encoding) w = Returns tt w'.
Proof.
  intros Hwf.
  pose proof (well_formed_live w Hwf) as (_ & _ & H3 & _ & _ & H6).
  pose proof (set_input_returns w input_ds in_table_name in_srs' encoding Hwf) as I1.
  pose proof (set_input_keeps_well_formed _ _ _ _ _ _ Hwf I1) as WI.
  pose proof (set_output_returns _ output_ds file_type out_table_name out_srs' WI) as O2.
  pose proof (set_output_returns w output_ds file_type out_table_name out_srs' Hwf) as O1.
  pose proof (set_output_keeps_well_formed _ _ _ _ _ _ Hwf O1) as WO.
  pose proof (set_input_returns _ input_ds in_table_name in_srs' encoding WO) as I2.
  eexists. split.
  { rewrite (bind_returns _ _ _ _ _ I1). exact O2. }
  rewrite (bind_returns _ _ _ _ _ O1), I2. f_equal.
  cbn [heap this trace with_input with_output command layer_mode data_source_mode
       _dataset_creation_options _layer_creation_options
       _dataset_creation_options_internal _layer_creation_options_internal
       _config_options _config_options_internal _geom_type input output].
  f_equal.
  destruct (PyStr.if_true encoding) as [e|],
    (bool_decide (file_type = Some "SQLite")); try reflexivity.
  destruct (decide (_config_options_internal (this w) =
                    _dataset_creation_options_internal (this w))) as [E|N].
  - rewrite E. rewrite !deref_insert_eq by exact H3.
    rewrite !list_insert_insert_eq. f_equal.
    apply insert_insert_ne. discriminate.
  - rewrite (deref_insert_ne _ _ (this w) _ (trace w)) by congruence.
    rewrite (deref_insert_ne _ _ (this w) _ (trace w)) by congruence.
    replace {| heap := heap w; this := this w; trace := trace w |} with w
      by now destruct w.
    now rewrite list_insert_insert_ne by congruence.
Qed.

(** A witness for X10: a new builder. *)
Lemma set_input_set_output_commute_witness :
  exists w' : World,
    (set_input (inr "/data/roads.shp") None None (Some "latin1");;
     set_output (inr "out.db") (Some "SQLite") None None) Sample.fresh =
      Returns tt w' /\
    (set_output (inr "out.db") (Some "SQLite") None None;;
     set_input (inr "/data/roads.shp") None None (Some "latin1")) Sample.fresh =
      Returns tt w'.
Proof.
  exact (set_input_set_output_commute Sample.fresh (inr "/data/roads.shp")
           (inr "out.db") None None (Some "latin1") (Some "SQLite") None None eq_refl).
Defined.

(** ** Consequences for the argument list *)

Lemma iteritems_empty (iteritems : dict -> list (string * string)) :
  (forall d, iteritems d ≡ₚ map_to_list d) -> iteritems ∅ = [].
Proof.
  intros H. pose proof (H ∅) as E. rewrite map_to_list_empty in E.
  now apply Permutation_nil_r in E.
Qed.

Lemma iteritems_lookup (iteritems : dict -> list (string * string)) (d : dict)
    (k v : string) :
  (forall d, iteritems d ≡ₚ map_to_list d) ->
  d !! k = Some v -> In (k, v) (iteritems d).
Proof.
  intros H Hk. apply list_elem_of_In. rewrite (H d).
  now apply elem_of_map_to_list.
Qed.

(** A new builder: default modes, no geometry type, no input or output, and
    six empty dicts of its own. *)
Lemma init_state (w0 : World) (cmd : string) :
  exists w1 : World,
    __init__ cmd w0 = Returns tt w1 /\
    well_formed w1 = true /\
    trace w1 = trace w0 /\
    command (this w1) = cmd /\
    layer_mode (this w1) = MODE_LAYER_CREATE /\
    data_source_mode (this w1) = MODE_DS_CREATE /\
    _geom_type (this w1) = None /\
    input (this w1) = None /\ output (this w1) = None /\
    deref w1 (_dataset_creation_options (this w1)) = ∅ /\
    deref w1 (_layer_creation_options (this w1)) = ∅ /\
    deref w1 (_dataset_creation_options_internal (this w1)) = ∅ /\
    deref w1 (_layer_creation_options_internal (this w1)) = ∅ /\
    deref w1 (_config_options (this w1)) = ∅ /\
    deref w1 (_config_options_internal (this w1)) = ∅.
Proof.
  destruct (init_well_formed w0 cmd) as (w1 & H1 & Hwf1 & _).
  exists w1. split; [exact H1|]. split; [exact Hwf1|].
  inversion H1 as [Hw1]. clear H1 Hwf1.
  repeat (split; [reflexivity|]).
  unfold deref. cbn [heap this _dataset_creation_options
    _layer_creation_options _dataset_creation_options_internal
    _layer_creation_options_internal _config_options _config_options_internal].
  rewrite <- !app_assoc, ?length_app. cbn [app length].
  assert (Hany : forall n : nat,
            default (∅ : dict) ([∅; ∅; ∅; ∅; ∅; ∅] !! n) = ∅).
  { intros n. do 6 (destruct n as [|n]; [reflexivity|]). reflexivity. }
  repeat split; rewrite lookup_app_r by lia; apply Hany.
Qed.

(** ** The base name of any path *)

Lemma last_slash_split (p : string) :
  PyStr.contains p "/" = true ->
  exists dir name : string,
    p = dir +:+ "/" +:+ name /\ PyStr.contains name "/" = false.
Proof.
  induction p as [|c r IH]; [discriminate|].
  cbn [PyStr.contains]. intros H.
  destruct (PyStr.contains r "/") eqn:Hr.
  - destruct (IH eq_refl) as (dir & name & -> & Hn).
    exists (String c dir), name. split; [reflexivity|exact Hn].
  - rewrite orb_false_r in H. apply Ascii.eqb_eq in H as ->.
    exists "", r. split; [reflexivity|exact Hr].
Qed.

(** Every path is a directory part, empty or ending in a slash, followed by
    its base name, and the base name holds no slash. *)
Lemma basename_decomposition (p : string) :
  exists dir : string,
    p = dir +:+ basename p /\
    PyStr.contains (basename p) "/" = false /\
    (dir = "" \/ exists d : string, dir = d +:+ "/").
Proof.
  destruct (PyStr.contains p "/") eqn:Hp.
  - destruct (last_slash_split p Hp) as (dir & name & -> & Hn).
    rewrite (basename_strips_directories dir name Hn).
    exists (dir +:+ "/"). split.
    + clear. induction dir as [|c dir IH]; [reflexivity|].
      change (String c dir +:+ "/" +:+ name) with (String c (dir +:+ "/" +:+ name)).
      change ((String c dir +:+ "/") +:+ name) with (String c ((dir +:+ "/") +:+ name)).
      now rewrite IH.
    + split; [exact Hn|]. right. now exists dir.
  - rewrite (basename_plain p Hp). exists "". split; [reflexivity|].
    split; [exact Hp|]. now left.
Qed.

Section Consequences.

Variable iteritems : dict -> list (string * string).
Hypothesis iteritems_items : forall d, iteritems d ≡ₚ map_to_list d.
Variable path_exists : string -> bool.
Variable Result : Type.
Variable process_result : list string -> Result.

(** X3.  [execute] on a builder that is not configured raises
    [AttributeError]: without [set_output] on the first output attribute it
    reads ([out_ds] in CREATE_OR_UPDATE mode, [out_srs] otherwise), with
    [set_output] but without [set_input] on [in_srs].  In particular a new
    builder cannot be executed. *)
Theorem execute_unconfigured_raises (w : World) :
  (output (this w) = None ->
   execute iteritems path_exists Result process_result w =
   Raises (AttributeError
             (if String.eqb (data_source_mode (this w)) MODE_DS_UPDATE then "out_srs"
              else if String.eqb (data_source_mode (this w)) MODE_DS_CREATE_OR_UPDATE
                   then "out_ds" else "out_srs"))) /\
  (forall o : OutputLayer,
     output (this w) = Some o -> input (this w) = None ->
     execute iteritems path_exists Result process_result w =
     Raises (AttributeError "in_srs")) /\
  (forall cmd : string,
     (__init__ cmd;; execute iteritems path_exists Result process_result) w =
     Raises (AttributeError "out_srs")).
Proof.
  assert (Hout : forall v : World,
            output (this v) = None ->
            execute iteritems path_exists Result process_result v =
            Raises (AttributeError
                      (if String.eqb (data_source_mode (this v)) MODE_DS_UPDATE
                       then "out_srs"
                       else if String.eqb (data_source_mode (this v))
                                 MODE_DS_CREATE_OR_UPDATE
                            then "out_ds" else "out_srs"))).
  { intros v Ho. unfold execute. apply bind_raises. unfold build_args.
    rewrite (bind_returns get_this _ v v (this v)) by reflexivity.
    assert (Hraise : forall attr, get_output attr v = Raises (AttributeError attr)).
    { intros attr. unfold get_output. now rewrite Ho. }
    destruct (String.eqb (data_source_mode (this v)) MODE_DS_UPDATE).
    - rewrite (bind_returns _ _ v v _ eq_refl). now apply bind_raises.
    - destruct (String.eqb (data_source_mode (this v)) MODE_DS_CREATE_OR_UPDATE).
      + apply bind_raises. now apply bind_raises.
      + rewrite (bind_returns _ _ v v _ eq_refl). now apply bind_raises. }
  split; [exact (Hout w)|]. split.
  - intros o Ho Hi. unfold execute. apply bind_raises.
    now apply (build_args_needs_input iteritems path_exists w o).
  - intros cmd. rewrite (bind_returns (__init__ cmd) _ w _ tt eq_refl).
    now rewrite Hout by reflexivity.
Qed.

(** X4.  The plain conversion.  A new builder given only a source path and
    a destination path runs the command with [-f] and the format inferred
    from the destination, [-nln] and the base name of the source, then the
    destination and the source; a destination spelled [pg:...] also gets
    [-nlt PROMOTE_TO_MULTI].  There is no mode flag, no SRS flag and no
    option.  The line that is logged is made of the same flags, followed by
    the display forms of the destination and of the source, whatever these
    forms are. *)
Theorem plain_conversion_arguments (w0 : World) (cmd src dst : string) :
  let flags :=
    [cmd; "-f"; FormatTable.inferred dst; "-nln"; basename src] ++
    (if String.eqb (FormatTable.inferred dst) "PostgreSQL"
     then ["-nlt"; "PROMOTE_TO_MULTI"] else []) in
  let args := flags ++ [dst; src] in
  let safe_args :=
    flags ++ [unicode (FileConnectionString dst);
              unicode (FileConnectionString src)] in
  exists w' : World,
    (__init__ cmd;;
     set_input (inr src) None None None;;
     set_output (inr dst) None None None;;
     execute iteritems path_exists Result process_result) w0 =
      Returns (process_result args) w' /\
    trace w' = trace w0 ++ [LogDebug (PyStr.join " " safe_args); DoExecute args].
Proof.
  intros flags args safe_args.
  destruct (init_state w0 cmd)
    as (w1 & H1 & Hwf1 & Htr & Hcmd & Hlm & Hdm & Hg & _ & _ &
        E1 & E2 & E3 & E4 & E5 & E6).
  pose proof (set_input_returns w1 (inr src) None None None Hwf1) as H2.
  cbn [PyStr.if_true PyStr.truthy] in H2.
  match type of H2 with _ = Returns _ ?x => remember x as w2 eqn:Ew2 end.
  pose proof (set_input_keeps_well_formed _ _ _ _ _ _ Hwf1 H2) as Hwf2.
  pose proof (set_output_returns w2 (inr dst) None None None Hwf2) as H3.
  rewrite bool_decide_eq_false_2 in H3 by discriminate.
  match type of H3 with _ = Returns _ ?x => remember x as w3 eqn:Ew3 end.
  pose proof (set_output_keeps_well_formed _ _ _ _ _ _ Hwf2 H3) as Hwf3.
  rewrite (bind_returns _ _ _ _ _ H1), (bind_returns _ _ _ _ _ H2),
    (bind_returns _ _ _ _ _ H3).
  assert (Hi : input (this w3) =
               Some {| in_ds := FileConnectionString src; in_table := None;
                       in_srs := None; in_encoding := None |})
    by (subst w3 w2; reflexivity).
  assert (Ho : output (this w3) =
               Some {| out_ds := FileConnectionString dst;
                       out_file_type := FormatTable.inferred dst;
                       out_table := None; out_srs := None |})
    by (subst w3 w2; reflexivity).
  pose proof (execute_returns iteritems path_exists Result process_result w3
                _ _ Hi Ho Hwf3) as Hx. cbv zeta in Hx.
  assert (Hd : dsco_items iteritems w3 = [] /\ lco_items iteritems w3 = [] /\
               config_items iteritems w3 = []).
  { unfold dsco_items, lco_items, config_items, merged. unfold deref in *.
    subst w3 w2. cbn [heap this with_output with_input
      _dataset_creation_options _layer_creation_options
      _dataset_creation_options_internal _layer_creation_options_internal
      _config_options _config_options_internal].
    rewrite E1, E2, E3, E4, E5, E6, (left_id_L ∅ (∪)).
    now rewrite (iteritems_empty iteritems iteritems_items). }
  destruct Hd as (Hd1 & Hd2 & Hd3). rewrite Hd1, Hd2, Hd3 in Hx.
  assert (Hthis : command (this w3) = cmd /\
                  layer_mode (this w3) = MODE_LAYER_CREATE /\
                  data_source_mode (this w3) = MODE_DS_CREATE /\
                  _geom_type (this w3) = None)
    by (subst w3 w2; cbn; auto).
  destruct Hthis as (Hc3 & Hl3 & Hm3 & Hg3).
  unfold Protocol.flags in Hx. rewrite Hc3, Hl3, Hm3, Hg3 in Hx.
  assert (Htrace : trace w3 = trace w0) by (subst w3 w2; cbn; exact Htr).
  rewrite Htrace in Hx.
  assert (Eargs : forall render : ConnectionString -> string,
            [cmd] ++ Protocol.data_source_flag MODE_DS_CREATE ++
            Protocol.layer_flag MODE_LAYER_CREATE ++
            Protocol.target_srs None ++ Protocol.source_srs None ++
            Protocol.format (FormatTable.inferred dst) ++
            Protocol.dsco [] ++ Protocol.lco [] ++ Protocol.config [] ++
            Protocol.nln
              {| in_ds := FileConnectionString src; in_table := None;
                 in_srs := None; in_encoding := None |}
              {| out_ds := FileConnectionString dst;
                 out_file_type := FormatTable.inferred dst;
                 out_table := None; out_srs := None |} ++
            Protocol.nlt None (FormatTable.inferred dst) ++
            Protocol.positional render
              {| in_ds := FileConnectionString src; in_table := None;
                 in_srs := None; in_encoding := None |}
              {| out_ds := FileConnectionString dst;
                 out_file_type := FormatTable.inferred dst;
                 out_table := None; out_srs := None |} =
            flags ++ [render (FileConnectionString dst);
                      render (FileConnectionString src)]).
  { intros render. subst flags.
    unfold Protocol.nlt, Protocol.geometry_type, Protocol.positional.
    cbn [out_ds in_ds in_table PyStr.if_true PyStr.truthy].
    destruct (String.eqb (FormatTable.inferred dst) "PostgreSQL"); reflexivity. }
  cbn [out_srs in_srs out_file_type] in Hx.
  rewrite <- !app_assoc in Hx.
  rewrite (Eargs encode), (Eargs unicode) in Hx.
  eexists. split; [exact Hx|]. reflexivity.
Qed.

(** X5.  The modes are not validated.  A layer mode other than APPEND and
    OVERWRITE and a data-source mode other than UPDATE and CREATE_OR_UPDATE
    are accepted by [set_output_mode] and give the argument lists of the
    default modes: no mode flag at all. *)
Theorem unknown_modes_emit_no_flag (w : World) (i : InputLayer) (o : OutputLayer)
    (layer_mode' data_source_mode' : string) :
  input (this w) = Some i -> output (this w) = Some o -> well_formed w = true ->
  layer_mode' <> MODE_LAYER_APPEND -> layer_mode' <> MODE_LAYER_OVERWRITE ->
  data_source_mode' <> MODE_DS_UPDATE ->
  data_source_mode' <> MODE_DS_CREATE_OR_UPDATE ->
  exists (args safe_args rest : list string) (w1 w2 : World),
    (set_output_mode layer_mode' data_source_mode';;
     build_args iteritems path_exists) w = Returns (args, safe_args) w1 /\
    (set_output_mode MODE_LAYER_CREATE MODE_DS_CREATE;;
     build_args iteritems path_exists) w = Returns (args, safe_args) w2 /\
    args = [command (this w)] ++
           Protocol.target_srs (out_srs o) ++ Protocol.source_srs (in_srs i) ++
           "-f" :: rest.
Proof.
  intros Hi Ho Hwf Hl1 Hl2 Hd1 Hd2.
  assert (Hmode : forall lm dm : string,
            lm <> MODE_LAYER_APPEND -> lm <> MODE_LAYER_OVERWRITE ->
            dm <> MODE_DS_UPDATE -> dm <> MODE_DS_CREATE_OR_UPDATE ->
            exists w' : World,
              (set_output_mode lm dm;; build_args iteritems path_exists) w =
              Returns
                (([command (this w)] ++ Protocol.target_srs (out_srs o) ++
                  Protocol.source_srs (in_srs i) ++ "-f" ::
                  ([out_file_type o] ++
                   Protocol.dsco (dsco_items iteritems w) ++
                   Protocol.lco (lco_items iteritems w) ++
                   Protocol.config (config_items iteritems w) ++
                   Protocol.nln i o ++
                   Protocol.nlt (_geom_type (this w)) (out_file_type o) ++
                   Protocol.positional encode i o)),
                 ([command (this w)] ++ Protocol.target_srs (out_srs o) ++
                  Protocol.source_srs (in_srs i) ++ "-f" ::
                  ([out_file_type o] ++
                   Protocol.dsco (dsco_items iteritems w) ++
                   Protocol.lco (lco_items iteritems w) ++
                   Protocol.config (config_items iteritems w) ++
                   Protocol.nln i o ++
                   Protocol.nlt (_geom_type (this w)) (out_file_type o) ++
                   Protocol.positional unicode i o))) w').
  { intros lm dm L1 L2 D1 D2.
    set (v := {| heap := heap w; this := with_modes lm dm (this w);
                 trace := trace w |}).
    rewrite (bind_returns (set_output_mode lm dm) _ w v tt eq_refl).
    assert (Hwfv : well_formed v = true) by exact Hwf.
    rewrite (build_args_returns iteritems path_exists v i o Hi Ho Hwfv).
    eexists. f_equal.
    unfold Protocol.flags, Protocol.data_source_flag, Protocol.layer_flag,
      Protocol.format.
    cbn [this v with_modes command data_source_mode layer_mode _geom_type].
    rewrite (proj2 (String.eqb_neq _ _) L1), (proj2 (String.eqb_neq _ _) L2),
      (proj2 (String.eqb_neq _ _) D1), (proj2 (String.eqb_neq _ _) D2).
    rewrite <- !app_assoc. reflexivity. }
  destruct (Hmode layer_mode' data_source_mode' Hl1 Hl2 Hd1 Hd2) as (w1 & E1).
  destruct (Hmode MODE_LAYER_CREATE MODE_DS_CREATE) as (w2 & E2);
    try discriminate.
  eexists. eexists. eexists. exists w1, w2.
  split; [exact E1|]. split; [exact E2|]. reflexivity.
Qed.

Lemma flat_map_member {A B} (f : A -> list B) (l : list A) (x : A) :
  In x l -> exists pre post : list B, flat_map f l = pre ++ f x ++ post.
Proof.
  intros H. apply in_split in H as (l1 & l2 & ->).
  exists (flat_map f l1), (flat_map f l2).
  rewrite flat_map_app. reflexivity.
Qed.

(** X6.  Every option reaches the command line.  For each item of a merged
    option dict the argument list holds its flag followed by the item
    ([-dsco KEY=VALUE], [-lco KEY=VALUE], [--config KEY VALUE]); in
    particular an item of a user dict always appears with the user's
    value. *)
Theorem options_reach_command_line (w : World) (i : InputLayer) (o : OutputLayer) :
  input (this w) = Some i -> output (this w) = Some o -> well_formed w = true ->
  exists (args safe_args : list string) (w' : World),
    build_args iteritems path_exists w = Returns (args, safe_args) w' /\
    (forall k v : string,
       merged w (_dataset_creation_options_internal (this w))
                (_dataset_creation_options (this w)) !! k = Some v ->
       exists pre post, args = pre ++ ["-dsco"; k +:+ "=" +:+ v] ++ post) /\
    (forall k v : string,
       merged w (_layer_creation_options_internal (this w))
                (_layer_creation_options (this w)) !! k = Some v ->
       exists pre post, args = pre ++ ["-lco"; k +:+ "=" +:+ v] ++ post) /\
    (forall k v : string,
       merged w (_config_options_internal (this w))
                (_config_options (this w)) !! k = Some v ->
       exists pre post, args = pre ++ ["--config"; k; v] ++ post) /\
    (forall k v : string,
       deref w (_dataset_creation_options (this w)) !! k = Some v ->
       exists pre post, args = pre ++ ["-dsco"; k +:+ "=" +:+ v] ++ post) /\
    (forall k v : string,
       deref w (_layer_creation_options (this w)) !! k = Some v ->
       exists pre post, args = pre ++ ["-lco"; k +:+ "=" +:+ v] ++ post) /\
    (forall k v : string,
       deref w (_config_options (this w)) !! k = Some v ->
       exists pre post, args = pre ++ ["--config"; k; v] ++ post).
Proof.
  intros Hi Ho Hwf. eexists. eexists. eexists.
  split; [apply (build_args_returns iteritems path_exists w i o Hi Ho Hwf)|].
  unfold Protocol.flags.
  assert (H1 : forall k v : string,
            merged w (_dataset_creation_options_internal (this w))
                     (_dataset_creation_options (this w)) !! k = Some v ->
            exists pre post,
              Protocol.dsco (dsco_items iteritems w) =
              pre ++ ["-dsco"; k +:+ "=" +:+ v] ++ post).
  { intros k v Hk. unfold Protocol.dsco, dsco_items.
    apply (flat_map_member (fun kv => ["-dsco"; kv.1 +:+ "=" +:+ kv.2]) _ (k, v)).
    now apply iteritems_lookup. }
  assert (H2 : forall k v : string,
            merged w (_layer_creation_options_internal (this w))
                     (_layer_creation_options (this w)) !! k = Some v ->
            exists pre post,
              Protocol.lco (lco_items iteritems w) =
              pre ++ ["-lco"; k +:+ "=" +:+ v] ++ post).
  { intros k v Hk. unfold Protocol.lco, lco_items.
    apply (flat_map_member (fun kv => ["-lco"; kv.1 +:+ "=" +:+ kv.2]) _ (k, v)).
    now apply iteritems_lookup. }
  assert (H3 : forall k v : string,
            merged w (_config_options_internal (this w))
                     (_config_options (this w)) !! k = Some v ->
            exists pre post,
              Protocol.config (config_items iteritems w) =
              pre ++ ["--config"; k; v] ++ post).
  { intros k v Hk. unfold Protocol.config, config_items.
    apply (flat_map_member (fun kv => ["--config"; kv.1; kv.2]) _ (k, v)).
    now apply iteritems_lookup. }
  assert (U : forall (internal user : ref) (k v : string),
            deref w user !! k = Some v -> merged w internal user !! k = Some v).
  { intros internal user k v Hk. now rewrite merged_lookup, Hk. }
  assert (G1 : forall (x : list string),
            (exists pre post, Protocol.dsco (dsco_items iteritems w) = pre ++ x ++ post) ->
            exists pre post,
              ([command (this w)] ++
               Protocol.data_source_flag (data_source_mode (this w)) ++
               Protocol.layer_flag (layer_mode (this w)) ++
               Protocol.target_srs (out_srs o) ++ Protocol.source_srs (in_srs i) ++
               Protocol.format (out_file_type o) ++
               Protocol.dsco (dsco_items iteritems w) ++
               Protocol.lco (lco_items iteritems w) ++
               Protocol.config (config_items iteritems w) ++
               Protocol.nln i o ++
               Protocol.nlt (_geom_type (this w)) (out_file_type o)) ++
              Protocol.positional encode i o = pre ++ x ++ post).
  { intros x (pre & post & ->).
    exists ([command (this w)] ++
            Protocol.data_source_flag (data_source_mode (this w)) ++
            Protocol.layer_flag (layer_mode (this w)) ++
            Protocol.target_srs (out_srs o) ++ Protocol.source_srs (in_srs i) ++
            Protocol.format (out_file_type o) ++ pre),
           (post ++ Protocol.lco (lco_items iteritems w) ++
            Protocol.config (config_items iteritems w) ++
            Protocol.nln i o ++
            Protocol.nlt (_geom_type (this w)) (out_file_type o) ++
            Protocol.positional encode i o).
    rewrite <- !app_assoc. reflexivity. }
  assert (G2 : forall (x : list string),
            (exists pre post, Protocol.lco (lco_items iteritems w) = pre ++ x ++ post) ->
            exists pre post,
              ([command (this w)] ++
               Protocol.data_source_flag (data_source_mode (this w)) ++
               Protocol.layer_flag (layer_mode (this w)) ++
               Protocol.target_srs (out_srs o) ++ Protocol.source_srs (in_srs i) ++
               Protocol.format (out_file_type o) ++
               Protocol.dsco (dsco_items iteritems w) ++
               Protocol.lco (lco_items iteritems w) ++
               Protocol.config (config_items iteritems w) ++
               Protocol.nln i o ++
               Protocol.nlt (_geom_type (this w)) (out_file_type o)) ++
              Protocol.positional encode i o = pre ++ x ++ post).
  { intros x (pre & post & ->).
    exists ([command (this w)] ++
            Protocol.data_source_flag (data_source_mode (this w)) ++
            Protocol.layer_flag (layer_mode (this w)) ++
            Protocol.target_srs (out_srs o) ++ Protocol.source_srs (in_srs i) ++
            Protocol.format (out_file_type o) ++
            Protocol.dsco (dsco_items iteritems w) ++ pre),
           (post ++ Protocol.config (config_items iteritems w) ++
            Protocol.nln i o ++
            Protocol.nlt (_geom_type (this w)) (out_file_type o) ++
            Protocol.positional encode i o).
    rewrite <- !app_assoc. reflexivity. }
  assert (G3 : forall (x : list string),
            (exists pre post,
               Protocol.config (config_items iteritems w) = pre ++ x ++ post) ->
            exists pre post,
              ([command (this w)] ++
               Protocol.data_source_flag (data_source_mode (this w)) ++
               Protocol.layer_flag (layer_mode (this w)) ++
               Protocol.target_srs (out_srs o) ++ Protocol.source_srs (in_srs i) ++
               Protocol.format (out_file_type o) ++
               Protocol.dsco (dsco_items iteritems w) ++
               Protocol.lco (lco_items iteritems w) ++
               Protocol.config (config_items iteritems w) ++
               Protocol.nln i o ++
               Protocol.nlt (_geom_type (this w)) (out_file_type o)) ++
              Protocol.positional encode i o = pre ++ x ++ post).
  { intros x (pre & post & ->).
    exists ([command (this w)] ++
            Protocol.data_source_flag (data_source_mode (this w)) ++
            Protocol.layer_flag (layer_mode (this w)) ++
            Protocol.target_srs (out_srs o) ++ Protocol.source_srs (in_srs i) ++
            Protocol.format (out_file_type o) ++
            Protocol.dsco (dsco_items iteritems w) ++
            Protocol.lco (lco_items iteritems w) ++ pre),
           (post ++ Protocol.nln i o ++
            Protocol.nlt (_geom_type (this w)) (out_file_type o) ++
            Protocol.positional encode i o).
    rewrite <- !app_assoc. reflexivity. }
  split; [intros k v Hk; apply G1, H1, Hk|].
  split; [intros k v Hk; apply G2, H2, Hk|].
  split; [intros k v Hk; apply G3, H3, Hk|].
  split; [intros k v Hk; apply G1, H1, U, Hk|].
  split; [intros k v Hk; apply G2, H2, U, Hk|].
  intros k v Hk; apply G3, H3, U, Hk.
Qed.

(** X11.  The argument list is the flags of steps 1 to 10, which do not
    depend on the geometry type, then the geometry part, then the positional
    arguments, and nothing else.  For the PostgreSQL output format the
    geometry part is always [-nlt] and a value: the override if one is set
    and ['PROMOTE_TO_MULTI'] otherwise, so that assigning [None] or the empty
    string cannot switch it off.  For every other format the geometry part
    is [-nlt] and the override when an override is set, and empty when none
    is. *)
Theorem geometry_flag_presence (w : World) (i : InputLayer) (o : OutputLayer) :
  input (this w) = Some i -> output (this w) = Some o -> well_formed w = true ->
  let before :=
    [command (this w)] ++
    Protocol.data_source_flag (data_source_mode (this w)) ++
    Protocol.layer_flag (layer_mode (this w)) ++
    Protocol.target_srs (out_srs o) ++ Protocol.source_srs (in_srs i) ++
    Protocol.format (out_file_type o) ++
    Protocol.dsco (dsco_items iteritems w) ++
    Protocol.lco (lco_items iteritems w) ++
    Protocol.config (config_items iteritems w) ++
    Protocol.nln i o in
  exists (geometry safe_args : list string) (w' : World),
    build_args iteritems path_exists w =
      Returns (before ++ geometry ++ Protocol.positional encode i o, safe_args) w' /\
    (forall t : string, PyStr.if_true (_geom_type (this w)) = Some t ->
       _geom_type (this w) = Some t /\ t <> "" /\ geometry = ["-nlt"; t]) /\
    (PyStr.if_true (_geom_type (this w)) = None ->
     out_file_type o = "PostgreSQL" -> geometry = ["-nlt"; "PROMOTE_TO_MULTI"]) /\
    (PyStr.if_true (_geom_type (this w)) = None ->
     out_file_type o <> "PostgreSQL" -> geometry = []).
Proof.
  intros Hi Ho Hwf before.
  exists (Protocol.nlt (_geom_type (this w)) (out_file_type o)).
  eexists. eexists. split.
  - rewrite (build_args_returns iteritems path_exists w i o Hi Ho Hwf).
    subst before. unfold Protocol.flags. rewrite <- !app_assoc. reflexivity.
  - unfold Protocol.nlt, Protocol.geometry_type.
    split; [|split].
    + intros t Ht. rewrite Ht.
      assert (Hs : PyStr.if_true (Some t) = Some t /\ _geom_type (this w) = Some t).
      { unfold PyStr.if_true in Ht |- *.
        destruct (PyStr.truthy (_geom_type (this w))) eqn:E; [|discriminate].
        rewrite Ht in E. now rewrite E. }
      destruct Hs as (Hs & Hg). rewrite Hs. split; [exact Hg|]. split; [|reflexivity].
      intros ->. discriminate Hs.
    + intros Hn Hpg. rewrite Hn, Hpg. reflexivity.
    + intros Hn Hpg. rewrite Hn.
      destruct (String.eqb_spec (out_file_type o) "PostgreSQL"); [contradiction|].
      now rewrite Hn.
Qed.

(** X12.  With a file input and no table names the [-nln] flag is always
    written, and its value is the last component of the input path: the path
    is a directory part, empty or ending in a slash, followed by the value,
    and the value holds no slash.  For an empty path or one that ends in a
    slash the value is the empty string, and the flag is still written. *)
Theorem file_layer_name_is_last_component (w : World) (i : InputLayer)
    (o : OutputLayer) :
  input (this w) = Some i -> output (this w) = Some o -> well_formed w = true ->
  PyStr.if_true (out_table o) = None -> PyStr.if_true (in_table i) = None ->
  is_file (in_ds i) = true ->
  exists (before after safe_args : list string) (dir name : string) (w' : World),
    build_args iteritems path_exists w =
      Returns (before ++ ["-nln"; name] ++ after, safe_args) w' /\
    after = Protocol.nlt (_geom_type (this w)) (out_file_type o) ++
            [encode (out_ds o); encode (in_ds i)] /\
    encode (in_ds i) = dir +:+ name /\
    PyStr.contains name "/" = false /\
    (dir = "" \/ exists d : string, dir = d +:+ "/") /\
    (encode (in_ds i) = "" \/ (exists d : string, encode (in_ds i) = d +:+ "/") ->
     name = "").
Proof.
  intros Hi Ho Hwf Hot Hit Hfile.
  destruct (basename_decomposition (encode (in_ds i))) as (dir & Hp & Hn & Hdir).
  exists ([command (this w)] ++
          Protocol.data_source_flag (data_source_mode (this w)) ++
          Protocol.layer_flag (layer_mode (this w)) ++
          Protocol.target_srs (out_srs o) ++ Protocol.source_srs (in_srs i) ++
          Protocol.format (out_file_type o) ++
          Protocol.dsco (dsco_items iteritems w) ++
          Protocol.lco (lco_items iteritems w) ++
          Protocol.config (config_items iteritems w)).
  eexists. eexists. exists dir, (basename (encode (in_ds i))). eexists.
  split.
  - rewrite (build_args_returns iteritems path_exists w i o Hi Ho Hwf).
    unfold Protocol.flags, Protocol.nln, Protocol.layer_name, Protocol.positional.
    rewrite Hot, Hit, Hfile. rewrite <- !app_assoc. reflexivity.
  - split; [now rewrite app_nil_r|]. split; [exact Hp|]. split; [exact Hn|].
    split; [exact Hdir|].
    intros [E|(d & E)]; rewrite E.
    + reflexivity.
    + apply (basename_strips_directories d ""). reflexivity.
Qed.

End Consequences.

(** ** The internal dicts along a session *)

Lemma internal_defaults_frame (w w' : World) :
  internal_defaults_only w ->
  well_formed w' = true ->
  _dataset_creation_options_internal (this w') =
    _dataset_creation_options_internal (this w) ->
  _layer_creation_options_internal (this w') =
    _layer_creation_options_internal (this w) ->
  _config_options_internal (this w') = _config_options_internal (this w) ->
  (forall r : ref, r < length (heap w) -> heap w' !! r = heap w !! r) ->
  internal_defaults_only w'.
Proof.
  intros (Hwf & N1 & N2 & N3 & El & Ed & Ec) Hwf' E1 E2 E3 Hheap.
  pose proof (well_formed_live w Hwf) as (_ & _ & H3 & H4 & _ & H6).
  assert (D : forall r : ref, r < length (heap w) -> deref w' r = deref w r)
    by (intros r Hr; unfold deref; now rewrite Hheap).
  unfold internal_defaults_only. rewrite E1, E2, E3, !D by assumption.
  exact (conj Hwf' (conj N1 (conj N2 (conj N3 (conj El (conj Ed Ec)))))).
Qed.

Lemma init_internal_defaults (w0 : World) (cmd : string) (w : World) :
  __init__ cmd w0 = Returns tt w -> internal_defaults_only w.
Proof.
  intros H.
  destruct (init_state w0 cmd)
    as (w1 & H1 & Hwf1 & _ & _ & _ & _ & _ & _ & _ & _ & _ & E3 & E4 & _ & E6).
  rewrite H1 in H. inversion H; subst w1. clear H.
  unfold internal_defaults_only. rewrite E3, E4, E6.
  split; [exact Hwf1|].
  inversion H1 as [Hw]. cbn [this _dataset_creation_options_internal
    _layer_creation_options_internal _config_options_internal].
  rewrite !length_app. cbn [length].
  split; [lia|]. split; [lia|]. split; [lia|]. split; [reflexivity|].
  split; intros k v Hk; now rewrite lookup_empty in Hk.
Qed.

Section SessionFacts.

Variable iteritems : dict -> list (string * string).
Variable path_exists : string -> bool.
Variable Result : Type.
Variable process_result : list string -> Result.

Lemma unit_bind_inv {A} (m : M A) (w w' : World) :
  (m;; mret tt) w = Returns tt w' -> exists a : A, m w = Returns a w'.
Proof.
  unfold mbind, M_mbind, M_bind, mret, M_mret, M_ret.
  destruct (m w) as [a w1|e]; [|discriminate].
  intros [= <-]. now exists a.
Qed.

Lemma new_dict_setter_keeps (w w' : World) (d : dict)
    (put : ref -> Ogr2ogr -> Ogr2ogr) :
  (forall r s, _dataset_creation_options_internal (put r s) =
               _dataset_creation_options_internal s) ->
  (forall r s, _layer_creation_options_internal (put r s) =
               _layer_creation_options_internal s) ->
  (forall r s, _config_options_internal (put r s) = _config_options_internal s) ->
  (forall r s, well_formed {| heap := heap w ++ [d]; this := s; trace := trace w |}
               = true ->
               r < length (heap w ++ [d]) ->
               well_formed {| heap := heap w ++ [d]; this := put r s; trace := trace w |}
               = true) ->
  internal_defaults_only w ->
  (r ← dict_new d; modify_this (put r)) w = Returns tt w' ->
  internal_defaults_only w'.
Proof.
  intros P1 P2 P3 Pwf Inv H.
  rewrite (bind_returns (dict_new d) _ w _ (length (heap w)) eq_refl) in H.
  inversion H; subst w'; clear H.
  apply (internal_defaults_frame w); cbn [heap this]; auto.
  - apply Pwf; [|rewrite length_app; cbn; lia].
    destruct Inv as (Hwf & _). unfold well_formed in *. cbn [heap this].
    rewrite forallb_forall in *. intros r Hr. specialize (Hwf r Hr).
    apply Nat.ltb_lt in Hwf. apply Nat.ltb_lt. rewrite length_app. lia.
  - intros r Hr. now apply lookup_app_l.
Qed.

Lemma run_call_keeps_internal_defaults (c : call) (w w' : World) :
  internal_defaults_only w ->
  run_call iteritems path_exists Result process_result c w = Returns tt w' ->
  internal_defaults_only w'.
Proof.
  intros Inv H. pose proof Inv as (Hwf & N1 & N2 & N3 & El & Ed & Ec).
  pose proof (well_formed_live w Hwf) as (H1 & H2 & H3 & H4 & H5 & H6).
  destruct c; cbn [run_call] in H.
  - (* set_input *)
    pose proof (set_input_keeps_well_formed _ _ _ _ _ _ Hwf H) as Hwf'.
    rewrite (set_input_returns w _ _ _ _ Hwf) in H. inversion H; subst w'; clear H.
    destruct (PyStr.if_true encoding) as [e|].
    + unfold internal_defaults_only.
      cbn [this with_input _dataset_creation_options_internal
           _layer_creation_options_internal _config_options_internal].
      rewrite deref_insert_eq by exact H6.
      rewrite !(deref_insert_ne _ _ (this w) _ (trace w)) by congruence.
      replace {| heap := heap w; this := this w; trace := trace w |} with w
        by now destruct w.
      refine (conj Hwf' (conj N1 (conj N2 (conj N3 (conj El (conj Ed _)))))).
      intros k v Hk. destruct (decide (k = "SHAPE_ENCODING")) as [->|Hne];
        [reflexivity|].
      rewrite lookup_insert_ne in Hk by congruence. now apply (Ec k v).
    + now apply (internal_defaults_frame w).
  - (* set_output *)
    pose proof (set_output_keeps_well_formed _ _ _ _ _ _ Hwf H) as Hwf'.
    rewrite (set_output_returns w _ _ _ _ Hwf) in H. inversion H; subst w'; clear H.
    destruct (bool_decide (file_type = Some "SQLite")).
    + unfold internal_defaults_only.
      cbn [this with_output _dataset_creation_options_internal
           _layer_creation_options_internal _config_options_internal].
      rewrite deref_insert_eq by exact H3.
      rewrite !(deref_insert_ne _ _ (this w) _ (trace w)) by congruence.
      replace {| heap := heap w; this := this w; trace := trace w |} with w
        by now destruct w.
      refine (conj Hwf' (conj N1 (conj N2 (conj N3 (conj El (conj _ Ec)))))).
      intros k v Hk. destruct (decide (k = "SPATIALITE")) as [->|Hne].
      * rewrite lookup_insert_eq in Hk. split; congruence.
      * rewrite lookup_insert_ne in Hk by congruence. now apply (Ed k v).
    + now apply (internal_defaults_frame w).
  - (* set_output_mode *)
    inversion H; subst w'. now apply (internal_defaults_frame w).
  - (* set_geom_type *)
    inversion H; subst w'. now apply (internal_defaults_frame w).
  - apply (new_dict_setter_keeps w w' options with_dataset_creation_options);
      auto.
    intros r s Hs Hr. clear -Hs Hr. unfold well_formed in *.
    cbn [heap this forallb with_dataset_creation_options
         with_layer_creation_options with_config_options
         _dataset_creation_options _layer_creation_options
         _dataset_creation_options_internal _layer_creation_options_internal
         _config_options _config_options_internal] in *.
    rewrite !andb_true_iff, !Nat.ltb_lt in *. tauto.
  - apply (new_dict_setter_keeps w w' options with_layer_creation_options);
      auto.
    intros r s Hs Hr. clear -Hs Hr. unfold well_formed in *.
    cbn [heap this forallb with_dataset_creation_options
         with_layer_creation_options with_config_options
         _dataset_creation_options _layer_creation_options
         _dataset_creation_options_internal _layer_creation_options_internal
         _config_options _config_options_internal] in *.
    rewrite !andb_true_iff, !Nat.ltb_lt in *. tauto.
  - apply (new_dict_setter_keeps w w' options with_config_options);
      auto.
    intros r s Hs Hr. clear -Hs Hr. unfold well_formed in *.
    cbn [heap this forallb with_dataset_creation_options
         with_layer_creation_options with_config_options
         _dataset_creation_options _layer_creation_options
         _dataset_creation_options_internal _layer_creation_options_internal
         _config_options _config_options_internal] in *.
    rewrite !andb_true_iff, !Nat.ltb_lt in *. tauto.
  - (* geom_type *)
    apply unit_bind_inv in H as (g & H). unfold geom_type in H.
    rewrite (bind_returns get_this _ w w (this w) eq_refl) in H.
    unfold get_output, mbind, M_mbind, M_bind in H.
    destruct (output (this w)); [|discriminate].
    destruct (_ && _) in H; inversion H; now subst w'.
  - apply unit_bind_inv in H as (r & H).
    unfold dataset_creation_options in H. rewrite getter_returns in H by assumption.
    inversion H; subst w'. apply (internal_defaults_frame w); auto.
    + unfold well_formed in *. cbn [heap this grow]. rewrite forallb_forall in *.
      intros x Hx. specialize (Hwf x Hx). apply Nat.ltb_lt in Hwf.
      apply Nat.ltb_lt. rewrite length_app. lia.
    + intros x Hx. unfold grow. cbn [heap]. now apply lookup_app_l.
  - apply unit_bind_inv in H as (r & H).
    unfold layer_creation_options in H. rewrite getter_returns in H by assumption.
    inversion H; subst w'. apply (internal_defaults_frame w); auto.
    + unfold well_formed in *. cbn [heap this grow]. rewrite forallb_forall in *.
      intros x Hx. specialize (Hwf x Hx). apply Nat.ltb_lt in Hwf.
      apply Nat.ltb_lt. rewrite length_app. lia.
    + intros x Hx. unfold grow. cbn [heap]. now apply lookup_app_l.
  - apply unit_bind_inv in H as (r & H).
    unfold config_options in H. rewrite getter_returns in H by assumption.
    inversion H; subst w'. apply (internal_defaults_frame w); auto.
    + unfold well_formed in *. cbn [heap this grow]. rewrite forallb_forall in *.
      intros x Hx. specialize (Hwf x Hx). apply Nat.ltb_lt in Hwf.
      apply Nat.ltb_lt. rewrite length_app. lia.
    + intros x Hx. unfold grow. cbn [heap]. now apply lookup_app_l.
  - (* execute *)
    apply unit_bind_inv in H as (r & H).
    destruct (output (this w)) as [o|] eqn:Ho.
    2:{ destruct (build_args_needs_output iteritems path_exists w Ho) as (attr & Hb).
        unfold execute in H. now rewrite (bind_raises _ _ _ _ Hb) in H. }
    destruct (input (this w)) as [i|] eqn:Hi.
    2:{ pose proof (build_args_needs_input iteritems path_exists w o Ho Hi) as Hb.
        unfold execute in H. now rewrite (bind_raises _ _ _ _ Hb) in H. }
    pose proof (execute_returns iteritems path_exists Result process_result w i o
                  Hi Ho Hwf) as Hx. cbv zeta in Hx.
    rewrite Hx in H. inversion H; subst w'. apply (internal_defaults_frame w); auto.
    + unfold well_formed in *. cbn [heap this after_views grow].
      rewrite forallb_forall in *.
      intros x Hin. specialize (Hwf x Hin). apply Nat.ltb_lt in Hwf.
      apply Nat.ltb_lt. rewrite length_app. lia.
    + intros x Hlt. unfold after_views, grow. cbn [heap]. now apply lookup_app_l.
Qed.

Lemma unit_bind_raises_inv {A} (m : M A) (w : World) (e : exn) :
  (m;; mret tt) w = Raises e -> m w = Raises e.
Proof.
  unfold mbind, M_mbind, M_bind, mret, M_mret, M_ret.
  destruct (m w) as [a w1|e']; [discriminate|]. now intros [= <-].
Qed.

(** The calls that can raise on a well-formed builder: [execute] before
    [set_output] or [set_input], and the read of [geom_type] before
    [set_output]; what they raise is [AttributeError]. *)
Lemma run_call_raises (c : call) (w : World) (e : exn) :
  well_formed w = true ->
  run_call iteritems path_exists Result process_result c w = Raises e ->
  (exists attr : string, e = AttributeError attr) /\
  ((c = CallExecute /\ (output (this w) = None \/ input (this w) = None)) \/
   (c = CallGetGeomType /\ output (this w) = None)).
Proof.
  intros Hwf H.
  pose proof (well_formed_live w Hwf) as (H1 & H2 & H3 & H4 & H5 & H6).
  destruct c; cbn [run_call] in H.
  - now rewrite (set_input_returns w _ _ _ _ Hwf) in H.
  - now rewrite (set_output_returns w _ _ _ _ Hwf) in H.
  - discriminate H.
  - discriminate H.
  - rewrite (bind_returns (dict_new options) _ w _ (length (heap w)) eq_refl) in H.
    discriminate H.
  - rewrite (bind_returns (dict_new options) _ w _ (length (heap w)) eq_refl) in H.
    discriminate H.
  - rewrite (bind_returns (dict_new options) _ w _ (length (heap w)) eq_refl) in H.
    discriminate H.
  - apply unit_bind_raises_inv in H.
    destruct (output (this w)) as [o|] eqn:Ho.
    + now rewrite (geom_type_returns w o Ho) in H.
    + unfold geom_type in H.
      rewrite (bind_returns get_this _ w w (this w) eq_refl) in H.
      rewrite (bind_raises (get_output "out_file_type") _ w
                 (AttributeError "out_file_type")) in H
        by (unfold get_output; now rewrite Ho).
      inversion H. split; [now eexists|]. right. now split.
  - apply unit_bind_raises_inv in H. unfold dataset_creation_options in H.
    rewrite getter_returns in H by assumption. discriminate H.
  - apply unit_bind_raises_inv in H. unfold layer_creation_options in H.
    rewrite getter_returns in H by assumption. discriminate H.
  - apply unit_bind_raises_inv in H. unfold config_options in H.
    rewrite getter_returns in H by assumption. discriminate H.
  - apply unit_bind_raises_inv in H.
    destruct (output (this w)) as [o|] eqn:Ho.
    2:{ destruct (build_args_needs_output iteritems path_exists w Ho) as (attr & Hb).
        unfold execute in H. rewrite (bind_raises _ _ _ _ Hb) in H.
        inversion H. split; [now eexists|]. left. split; [reflexivity|now left]. }
    destruct (input (this w)) as [i|] eqn:Hi.
    2:{ pose proof (build_args_needs_input iteritems path_exists w o Ho Hi) as Hb.
        unfold execute in H. rewrite (bind_raises _ _ _ _ Hb) in H.
        inversion H. split; [now eexists|]. left. split; [reflexivity|now right]. }
    pose proof (execute_returns iteritems path_exists Result process_result w i o
                  Hi Ho Hwf) as Hx. cbv zeta in Hx.
    rewrite Hx in H. discriminate H.
Qed.

Lemma attempt_keeps_internal_defaults (c : call) (w : World) :
  internal_defaults_only w ->
  exists w' : World,
    attempt iteritems path_exists Result process_result c w = Returns tt w' /\
    internal_defaults_only w'.
Proof.
  intros Inv. unfold attempt.
  destruct (run_call iteritems path_exists Result process_result c w)
    as [[] w'|e] eqn:Hc.
  - exists w'. split; [reflexivity|].
    now apply (run_call_keeps_internal_defaults c w w').
  - exists w. now split.
Qed.

Lemma run_calls_caught_keeps_internal_defaults (calls : list call) (w1 : World) :
  internal_defaults_only w1 ->
  exists w : World,
    run_calls_caught iteritems path_exists Result process_result calls w1 =
      Returns tt w /\
    internal_defaults_only w.
Proof.
  revert w1. induction calls as [|c rest IH]; intros w1 Inv.
  - exists w1. now split.
  - destruct (attempt_keeps_internal_defaults c w1 Inv) as (w2 & Hc & Inv2).
    destruct (IH w2 Inv2) as (w & Hr & Hw).
    exists w. split; [|exact Hw]. cbn [run_calls_caught].
    now rewrite (bind_returns _ _ _ _ _ Hc).
Qed.

Lemma run_calls_caught_agrees (calls : list call) (w1 w : World) :
  run_calls iteritems path_exists Result process_result calls w1 = Returns tt w ->
  run_calls_caught iteritems path_exists Result process_result calls w1 =
    Returns tt w.
Proof.
  revert w1. induction calls as [|c rest IH]; intros w1 H; [exact H|].
  cbn [run_calls run_calls_caught] in *.
  destruct (run_call iteritems path_exists Result process_result c w1)
    as [[] w2|e] eqn:Hc.
  - rewrite (bind_returns _ _ _ _ _ Hc) in H.
    assert (Ha : attempt iteritems path_exists Result process_result c w1 =
                 Returns tt w2) by (unfold attempt; now rewrite Hc).
    rewrite (bind_returns _ _ _ _ _ Ha). now apply IH.
  - now rewrite (bind_raises _ _ _ _ Hc) in H.
Qed.

Lemma run_calls_raises (calls : list call) (w1 : World) (e : exn) :
  internal_defaults_only w1 ->
  run_calls iteritems path_exists Result process_result calls w1 = Raises e ->
  exists attr : string, e = AttributeError attr.
Proof.
  revert w1. induction calls as [|c rest IH]; intros w1 Inv H; [discriminate H|].
  cbn [run_calls] in H.
  destruct (run_call iteritems path_exists Result process_result c w1)
    as [[] w2|e'] eqn:Hc.
  - rewrite (bind_returns _ _ _ _ _ Hc) in H.
    apply (IH w2); [|exact H].
    now apply (run_call_keeps_internal_defaults c w1 w2).
  - rewrite (bind_raises _ _ _ _ Hc) in H. inversion H; subst e'.
    destruct Inv as (Hwf & _).
    exact (proj1 (run_call_raises c w1 e Hwf Hc)).
Qed.

(** X13.  Whatever is called on a builder, in whatever order, the builder
    never writes into its internal layer-creation dict, puts nothing but
    ['SPATIALITE'='YES'] into the internal dataset-creation dict and nothing
    but an encoding under ['SHAPE_ENCODING'] into the internal config dict:
    the merged layer-creation options are always exactly the user's.  This
    holds of every sequence of calls, the ones with an [execute] or a read
    of [geom_type] that raises included: with each exception caught the
    sequence runs to its end, in a state where all of this holds; a sequence
    that runs to its end with nothing caught ends in that same state; and one
    that does not raises [AttributeError]. *)
Theorem internal_dicts_along_a_session (w0 : World) (cmd : string)
    (calls : list call) :
  exists w : World,
    (__init__ cmd;;
     run_calls_caught iteritems path_exists Result process_result calls) w0 =
      Returns tt w /\
    (forall w' : World,
       (__init__ cmd;;
        run_calls iteritems path_exists Result process_result calls) w0 =
         Returns tt w' -> w' = w) /\
    (forall e : exn,
       (__init__ cmd;;
        run_calls iteritems path_exists Result process_result calls) w0 =
         Raises e -> exists attr : string, e = AttributeError attr) /\
    deref w (_layer_creation_options_internal (this w)) = ∅ /\
    merged w (_layer_creation_options_internal (this w))
             (_layer_creation_options (this w)) =
      deref w (_layer_creation_options (this w)) /\
    (forall k v : string,
       deref w (_dataset_creation_options_internal (this w)) !! k = Some v ->
       k = "SPATIALITE" /\ v = "YES") /\
    (forall k v : string,
       deref w (_config_options_internal (this w)) !! k = Some v ->
       k = "SHAPE_ENCODING").
Proof.
  destruct (init_state w0 cmd) as (w1 & H1 & _).
  pose proof (init_internal_defaults w0 cmd w1 H1) as Inv1.
  destruct (run_calls_caught_keeps_internal_defaults calls w1 Inv1)
    as (w & Hr & Inv).
  exists w. rewrite !(bind_returns _ _ _ _ _ H1).
  split; [exact Hr|]. split.
  { intros w' H'. apply run_calls_caught_agrees in H'.
    rewrite Hr in H'. now inversion H'. }
  split; [intros e He; exact (run_calls_raises calls w1 e Inv1 He)|].
  destruct Inv as (_ & _ & _ & _ & El & Ed & Ec).
  split; [exact El|]. split; [|split; assumption].
  unfold merged. rewrite El. apply (right_id_L ∅ (∪)).
Qed.

End SessionFacts.

(** ** The geometry type *)

(** X14.  Reading the geometry type back.  Before [set_output] the read
    raises [AttributeError] on [out_file_type], whatever was assigned.
    After it, the read gives back what was assigned, with one exception: on
    the PostgreSQL format an assigned [None] or empty string reads back as
    ['PROMOTE_TO_MULTI']. *)
Theorem geom_type_read_back (w : World) (g : option string) :
  (output (this w) = None ->
   (set_geom_type g;; geom_type) w = Raises (AttributeError "out_file_type")) /\
  (forall o : OutputLayer,
     output (this w) = Some o ->
     exists (g' : option string) (w' : World),
       (set_geom_type g;; geom_type) w = Returns g' w' /\
       _geom_type (this w') = g /\
       heap w' = heap w /\
       (PyStr.truthy g = true -> g' = g) /\
       (out_file_type o <> "PostgreSQL" -> g' = g) /\
       (PyStr.truthy g = false -> out_file_type o = "PostgreSQL" ->
        g' = Some "PROMOTE_TO_MULTI")).
Proof.
  set (v := {| heap := heap w; this := with_geom_type g (this w); trace := trace w |}).
  assert (Hset : set_geom_type g w = Returns tt v) by reflexivity.
  split.
  - intros Ho. rewrite (bind_returns _ _ _ _ _ Hset). unfold geom_type.
    rewrite (bind_returns get_this _ v v (this v) eq_refl).
    apply bind_raises. unfold get_output. cbn [v this with_geom_type output].
    now rewrite Ho.
  - intros o Ho.
    assert (Hov : output (this v) = Some o) by exact Ho.
    exists (Protocol.geometry_type g (out_file_type o)), v.
    split. { rewrite (bind_returns _ _ _ _ _ Hset).
             apply (geom_type_returns v o Hov). }
    split; [reflexivity|]. split; [reflexivity|].
    unfold Protocol.geometry_type, PyStr.if_true.
    destruct (PyStr.truthy g) eqn:Ht.
    + split; [intros _; now destruct g|]. split; [intros _; now destruct g|].
      discriminate.
    + split; [discriminate|]. split.
      * intros Hne. now destruct (String.eqb_spec (out_file_type o) "PostgreSQL").
      * intros _ ->. reflexivity.
Qed.

(** ** Witnesses on the sample sessions *)

(** A witness for X3: a new builder. *)
Lemma execute_unconfigured_raises_witness :
  execute map_to_list (fun _ => false) (list string) (fun args => args) Sample.fresh =
  Raises (AttributeError "out_srs").
Proof.
  exact (proj1 (execute_unconfigured_raises map_to_list (fun _ => false)
                  (list string) (fun args => args) Sample.fresh) eq_refl).
Defined.

(** A witness for X4: a shapefile loaded into a database named by a raw
    [PG:] string. *)
Lemma plain_conversion_arguments_witness :
  exists w' : World,
    (__init__ OGR2OGR_PATH;;
     set_input (inr "/data/roads.shp") None None None;;
     set_output (inr "PG:dbname=gis") None None None;;
     execute map_to_list (fun _ => false) (list string) (fun args => args))
      Sample.blank =
      Returns [ "/usr/bin/ogr2ogr"; "-f"; "PostgreSQL"; "-nln"; "roads.shp";
                "-nlt"; "PROMOTE_TO_MULTI"; "PG:dbname=gis"; "/data/roads.shp" ] w'.
Proof.
  destruct (plain_conversion_arguments map_to_list (fun d => Permutation_refl _)
              (fun _ => false) (list string) (fun args => args)
              Sample.blank OGR2OGR_PATH "/data/roads.shp" "PG:dbname=gis")
    as (w' & Hx & _).
  exists w'. exact Hx.
Defined.

(** A witness for X5: two mode strings that are no modes. *)
Lemma unknown_modes_emit_no_flag_witness :
  exists (args safe_args : list string) (w1 : World),
    (set_output_mode "APPEND" "update";;
     build_args map_to_list (fun _ => false)) Sample.roads =
      Returns (args, safe_args) w1 /\
    args = [ "/usr/bin/ogr2ogr"; "-f"; "ESRI Shapefile"; "-nln"; "roads.shp";
             "out.shp"; "/data/roads.shp" ].
Proof.
  destruct (unknown_modes_emit_no_flag map_to_list (fun _ => false) Sample.roads
              (mkInput (FileConnectionString "/data/roads.shp") None None None)
              (mkOutput (FileConnectionString "out.shp") "ESRI Shapefile" None None)
              "APPEND" "update" eq_refl eq_refl eq_refl)
    as (args & safe & rest & w1 & w2 & H1 & H2 & _); try discriminate.
  exists args, safe, w1. split; [exact H1|].
  assert (E : Returns (args, safe) w2 =
              Returns ([ "/usr/bin/ogr2ogr"; "-f"; "ESRI Shapefile"; "-nln";
                         "roads.shp"; "out.shp"; "/data/roads.shp" ],
                       [ "/usr/bin/ogr2ogr"; "-f"; "ESRI Shapefile"; "-nln";
                         "roads.shp"; "out.shp"; "/data/roads.shp" ])
                      (after_views Sample.roads)).
  { rewrite <- H2. vm_compute. reflexivity. }
  now inversion E.
Defined.

(** A witness for X6: the encoding of [Sample.to_postgis]. *)
Lemma options_reach_command_line_witness :
  exists (args safe_args : list string) (w' : World) (pre post : list string),
    build_args map_to_list (fun _ => false) Sample.to_postgis =
      Returns (args, safe_args) w' /\
    args = pre ++ ["--config"; "SHAPE_ENCODING"; "latin1"] ++ post.
Proof.
  destruct (options_reach_command_line map_to_list (fun d => Permutation_refl _)
              (fun _ => false) Sample.to_postgis
              (mkInput (FileConnectionString "/data/roads.shp") None
                       (Some "EPSG:25830") (Some "latin1"))
              (mkOutput Sample.gis_db "PostgreSQL" (Some "roads") (Some "EPSG:4326"))
              eq_refl eq_refl eq_refl)
    as (args & safe & w' & Hb & _ & _ & Hc & _).
  destruct (Hc "SHAPE_ENCODING" "latin1" eq_refl) as (pre & post & E).
  exists args, safe, w', pre, post. split; [exact Hb|exact E].
Defined.

(** A witness for X9: a KML destination. *)
Lemma suffix_rules_do_not_overlap_witness : infer_file_type "out.kml" = "KML".
Proof.
  destruct (suffix_rules_do_not_overlap "out.kml") as (_ & _ & H).
  destruct (H eq_refl) as (_ & _ & _ & _ & _ & _ & Hkml).
  exact (Hkml eq_refl).
Defined.

(** A witness for X11: the PostgreSQL session with no override. *)
Lemma geometry_flag_presence_witness :
  exists (before geometry safe_args : list string) (w' : World),
    build_args map_to_list (fun _ => false) Sample.to_postgis =
      Returns (before ++ geometry ++
               ["PG:dbname='gis' password='secret'"; "/data/roads.shp"],
               safe_args) w' /\
    geometry = ["-nlt"; "PROMOTE_TO_MULTI"].
Proof.
  destruct (geometry_flag_presence map_to_list (fun _ => false) Sample.to_postgis
              (mkInput (FileConnectionString "/data/roads.shp") None
                       (Some "EPSG:25830") (Some "latin1"))
              (mkOutput Sample.gis_db "PostgreSQL" (Some "roads") (Some "EPSG:4326"))
              eq_refl eq_refl eq_refl)
    as (geometry & safe & w' & Hb & _ & Hpg & _).
  eexists. exists geometry, safe, w'. split; [exact Hb|].
  apply Hpg; reflexivity.
Defined.

(** A witness for X12: the session [Sample.roads]. *)
Lemma file_layer_name_is_last_component_witness :
  exists (before after safe_args : list string) (dir name : string) (w' : World),
    build_args map_to_list (fun _ => false) Sample.roads =
      Returns (before ++ ["-nln"; name] ++ after, safe_args) w' /\
    "/data/roads.shp" = dir +:+ name /\
    PyStr.contains name "/" = false.
Proof.
  destruct (file_layer_name_is_last_component map_to_list (fun _ => false)
              Sample.roads
              (mkInput (FileConnectionString "/data/roads.shp") None None None)
              (mkOutput (FileConnectionString "out.shp") "ESRI Shapefile" None None)
              eq_refl eq_refl eq_refl eq_refl eq_refl eq_refl)
    as (before & after & safe & dir & name & w' & Hb & _ & Hp & Hn & _).
  exists before, after, safe, dir, name, w'.
  split; [exact Hb|]. split; [exact Hp|exact Hn].
Defined.

(** A witness for X13: a session that executes too early, reads the
    geometry type too early, then sets, reads, executes and retargets. *)
Lemma internal_dicts_along_a_session_witness :
  exists w : World,
    (__init__ OGR2OGR_PATH;;
     run_calls_caught map_to_list (fun _ => false) (list string) (fun args => args)
       [ CallExecute;
         CallSetGeomType (Some "MULTIPOLYGON");
         CallGetGeomType;
         CallSetInput (inr "/data/roads.shp") None None (Some "latin1");
         CallSetLayerCreationOptions {[ "SPATIAL_INDEX" := "YES" ]};
         CallExecute;
         CallSetOutput (inr "out.db") (Some "SQLite") None None;
         CallGetConfigOptions;
         CallExecute;
         CallSetOutput (inr "out.shp") None None None;
         CallExecute ]) Sample.blank = Returns tt w /\
    deref w (_layer_creation_options_internal (this w)) = ∅ /\
    merged w (_layer_creation_options_internal (this w))
             (_layer_creation_options (this w)) =
      deref w (_layer_creation_options (this w)).
Proof.
  destruct (internal_dicts_along_a_session map_to_list (fun _ => false)
              (list string) (fun args => args) Sample.blank OGR2OGR_PATH
              [ CallExecute;
                CallSetGeomType (Some "MULTIPOLYGON");
                CallGetGeomType;
                CallSetInput (inr "/data/roads.shp") None None (Some "latin1");
                CallSetLayerCreationOptions {[ "SPATIAL_INDEX" := "YES" ]};
                CallExecute;
                CallSetOutput (inr "out.db") (Some "SQLite") None None;
                CallGetConfigOptions;
                CallExecute;
                CallSetOutput (inr "out.shp") None None None;
                CallExecute ])
    as (w & Hr & _ & _ & El & Em & _).
  exists w. exact (conj Hr (conj El Em)).
Defined.

(** A witness for X14: the empty string assigned on the PostgreSQL
    session. *)
Lemma geom_type_read_back_witness :
  exists w' : World,
    (set_geom_type (Some "");; geom_type) Sample.to_postgis =
    Returns (Some "PROMOTE_TO_MULTI") w'.
Proof.
  destruct (proj2 (geom_type_read_back Sample.to_postgis (Some ""))
              (mkOutput Sample.gis_db "PostgreSQL" (Some "roads") (Some "EPSG:4326"))
              eq_refl) as (g' & w' & Hr & _ & _ & _ & _ & Hpg).
  exists w'. rewrite Hr. f_equal. apply Hpg; reflexivity.
Defined.
